(** * ServerHook: the SalesIQ conversation webhook

    A shallow embedding of [ServerHook.py]: the text normaliser, the
    quote-form parser, the per-visitor session store and the conversation
    state machine behind [POST /salesiq-webhook].

    Python values are modelled as the code meets them:
    - a [str] is a list of Unicode code points ([pystr]);
    - a decoded JSON body is a [pyval];
    - the dicts [sessions], [session["data"]] and [campos] are finite maps
      keyed by [pystr];
    - an exception is an [outcome] that is not [Ok]; the handlers run in a
      state-and-exception monad whose state survives a raise, as a mutated
      Python object does.

    What the code delegates to the Python library and its Unicode database
    ([str.lower], [unicodedata.normalize], [unicodedata.category], [str] of
    a value that is not a string) is an interface, [PyLib]; every general
    theorem holds for all its implementations.  [ucd] implements it on an
    excerpt of the Unicode tables, for the concrete runs. *)

From Stdlib Require Import NArith ZArith Lia List Bool Ascii String.
From Stdlib Require Import Floats.SpecFloat DecimalString.
From stdpp Require Import base option list gmap fin_maps.

Local Open Scope N_scope.
Local Open Scope list_scope.

(** ** Strings *)

Definition codepoint := N.
Definition pystr := list N.

Fixpoint bytes_of (s : string) : list N :=
  match s with
  | EmptyString => []
  | String a s' => N_of_ascii a :: bytes_of s'
  end.

(** UTF-8 decoding of a well-formed byte sequence; the literals of the
    source file are written below as they are in [ServerHook.py]. *)
Fixpoint utf8_decode (bs : list N) : pystr :=
  match bs with
  | [] => []
  | b :: rest =>
      if b <? 128 then b :: utf8_decode rest
      else if b <? 224 then
        match rest with
        | b1 :: r => ((b mod 32) * 64 + b1 mod 64) :: utf8_decode r
        | _ => []
        end
      else if b <? 240 then
        match rest with
        | b1 :: b2 :: r =>
            ((b mod 16) * 4096 + (b1 mod 64) * 64 + b2 mod 64) :: utf8_decode r
        | _ => []
        end
      else
        match rest with
        | b1 :: b2 :: b3 :: r =>
            ((b mod 8) * 262144 + (b1 mod 64) * 4096 + (b2 mod 64) * 64 + b3 mod 64)
              :: utf8_decode r
        | _ => []
        end
  end.

Definition u (s : string) : pystr := utf8_decode (bytes_of s).
Arguments u s%_string.

(** [str.isspace] on one code point: what [str.strip()] removes. *)
Definition is_space (c : codepoint) : bool :=
  ((9 <=? c) && (c <=? 13)) || ((28 <=? c) && (c <=? 32))
  || (c =? 133) || (c =? 160) || (c =? 5760)
  || ((8192 <=? c) && (c <=? 8202))
  || (c =? 8232) || (c =? 8233) || (c =? 8239) || (c =? 8287) || (c =? 12288).

(** The line boundaries of [str.splitlines()]. *)
Definition is_linebreak (c : codepoint) : bool :=
  ((10 <=? c) && (c <=? 13)) || ((28 <=? c) && (c <=? 30))
  || (c =? 133) || (c =? 8232) || (c =? 8233).

Fixpoint lstrip (s : pystr) : pystr :=
  match s with
  | c :: s' => if is_space c then lstrip s' else s
  | [] => []
  end.

Definition rstrip (s : pystr) : pystr := rev (lstrip (rev s)).

Definition strip (s : pystr) : pystr := rstrip (lstrip s).

(** [s.splitlines()]: the lines without their terminators; ["\r\n"] is one
    terminator, and a final terminator opens no further line. *)
Fixpoint splitlines (s : pystr) : list pystr :=
  match s with
  | [] => []
  | c :: rest =>
      if is_linebreak c then
        [] :: match c, rest with
              | 13, 10 :: rest' => splitlines rest'
              | _, _ => splitlines rest
              end
      else
        match splitlines rest with
        | [] => [[c]]
        | l :: ls => (c :: l) :: ls
        end
  end.

Fixpoint startswith (s p : pystr) {struct p} : bool :=
  match p, s with
  | [], _ => true
  | a :: p', b :: s' => (a =? b) && startswith s' p'
  | _ :: _, [] => false
  end.

(** [needle in hay] on strings. *)
Fixpoint contains (needle hay : pystr) : bool :=
  startswith hay needle
  || match hay with
     | [] => false
     | _ :: hay' => contains needle hay'
     end.

(** [s.split(sep, 1)] for a one-character separator. *)
Fixpoint split1 (sep : codepoint) (s : pystr) : list pystr :=
  match s with
  | [] => [[]]
  | c :: s' =>
      if c =? sep then [[]; s']
      else match split1 sep s' with
           | a :: rest => (c :: a) :: rest
           | [] => [[c]]
           end
  end.

Definition str_eqb (a b : pystr) : bool := bool_decide (a = b).

(** [x in (a, b, ...)] on strings. *)
Definition in_tuple (x : pystr) (t : list pystr) : bool :=
  existsb (str_eqb x) t.

(** [a or b] on strings. *)
Definition str_or (a b : pystr) : pystr :=
  match a with [] => b | _ => a end.

(** ** Decoded JSON values *)

#[warnings="-register-all"]
Inductive pyval :=
  | PNone
  | PBool (b : bool)
  | PInt (z : Z)
  | PFloat (f : spec_float)
  | PStr (s : pystr)
  | PList (l : list pyval)
  | PDict (d : list (pystr * pyval)).

(** Truth value of a Python object. *)
Definition truthy (v : pyval) : bool :=
  match v with
  | PNone => false
  | PBool b => b
  | PInt z => negb (z =? 0)%Z
  | PFloat (S754_zero _) => false
  | PFloat _ => true
  | PStr s => match s with [] => false | _ => true end
  | PList l => match l with [] => false | _ => true end
  | PDict d => match d with [] => false | _ => true end
  end.

Definition py_or (a b : pyval) : pyval := if truthy a then a else b.

(** ** Exceptions *)

Inductive exn := AttributeError | ValueError | KeyError.

Inductive outcome (A : Type) :=
  | Ok (a : A)
  | Raise (e : exn).
Arguments Ok {A} a.
Arguments Raise {A} e.

#[export] Instance outcome_ret : MRet outcome := fun A a => Ok a.
#[export] Instance outcome_bind : MBind outcome := fun A B f m =>
  match m with
  | Ok a => f a
  | Raise e => Raise e
  end.
#[export] Instance outcome_fmap : FMap outcome := fun A B f m =>
  match m with
  | Ok a => Ok (f a)
  | Raise e => Raise e
  end.

Fixpoint assoc (k : pystr) (d : list (pystr * pyval)) : option pyval :=
  match d with
  | [] => None
  | (k', v) :: d' => if str_eqb k k' then Some v else assoc k d'
  end.

(** [obj.get(key)]: only a dict has the method; the keys of a decoded
    object are distinct, and an absent key gives [None]. *)
Definition py_get (obj : pyval) (key : pystr) : outcome pyval :=
  match obj with
  | PDict d => Ok (default PNone (assoc key d))
  | _ => Raise AttributeError
  end.

(** ** The Python library interface *)

Class PyLib := {
  (** [s.lower()] *)
  str_lower : pystr -> pystr;
  (** [unicodedata.normalize("NFD", s)] *)
  normalize_NFD : pystr -> pystr;
  (** [unicodedata.category(c)] *)
  category : codepoint -> pystr;
  (** [str(v)] for a value that is not a string *)
  str_nonstr : pyval -> pystr
}.

Definition py_str `{PyLib} (v : pyval) : pystr :=
  match v with
  | PStr s => s
  | _ => str_nonstr v
  end.

(** ** Sessions and replies *)

(** One entry of [sessions]: [{"state": ..., "data": {...}}]. *)
Record Session := {
  state : pystr;
  data : gmap pystr pystr
}.

Record InputCard := {
  type : pystr;
  options : list pystr
}.

Record Reply := {
  action : pystr;
  replies : list pystr;
  input : option InputCard
}.

Inductive http_method := GET | POST.

(** What [jsonify] is given: the status probe of [GET], or a reply. *)
Inductive Response :=
  | JsonStatus (status message : pystr)
  | JsonReply (r : Reply).

(** The [texts] argument of [build_reply]: one string or a sequence. *)
Inductive texts_arg :=
  | OneText (s : pystr)
  | Texts (l : list pystr).

(** ** State and exceptions

    A computation over a mutable object of type [S]: it returns the object
    as it left it, also when it raises. *)
Definition M (S A : Type) : Type := S -> S * outcome A.

#[export] Instance M_ret {S} : MRet (M S) := fun A a s => (s, Ok a).
#[export] Instance M_bind {S} : MBind (M S) := fun A B f m s =>
  match m s with
  | (s', Ok a) => f a s'
  | (s', Raise e) => (s', Raise e)
  end.
#[export] Instance M_fmap {S} : FMap (M S) := fun A B f m s =>
  match m s with
  | (s', Ok a) => (s', Ok (f a))
  | (s', Raise e) => (s', Raise e)
  end.

Definition lift {S A} (o : outcome A) : M S A := fun s => (s, o).

(** [session["state"]] and [session["state"] = v] *)
Definition get_state : M Session pystr := fun s => (s, Ok (state s)).
Definition set_state (v : pystr) : M Session unit :=
  fun s => ({| state := v; data := data s |}, Ok tt).

(** [data[k] = v], [data.get(k)] and [data.update(campos)] on the dict
    that [session["data"]] refers to. *)
Definition data_setitem (k v : pystr) : M Session unit :=
  fun s => ({| state := state s; data := <[k := v]> (data s) |}, Ok tt).
Definition data_get (k : pystr) : M Session (option pystr) :=
  fun s => (s, Ok (data s !! k)).
Definition data_update (campos : gmap pystr pystr) : M Session unit :=
  fun s => ({| state := state s; data := campos ∪ data s |}, Ok tt).

(** [sessions.setdefault(visitor_id, default)] *)
Definition setdefault (visitor_id : pystr) (dflt : Session)
  : M (gmap pystr Session) unit :=
  fun sessions =>
    match sessions !! visitor_id with
    | Some _ => (sessions, Ok tt)
    | None => (<[visitor_id := dflt]> sessions, Ok tt)
    end.

(** Runs a computation on the session object that [sessions] holds under
    [visitor_id]: the handlers mutate that very object. *)
Definition en_sesion {A} (visitor_id : pystr) (m : M Session A)
  : M (gmap pystr Session) A :=
  fun sessions =>
    match sessions !! visitor_id with
    | Some session =>
        let (session', r) := m session in
        (<[visitor_id := session']> sessions, r)
    | None => (sessions, Raise KeyError)
    end.

(** [d[k]] on a dict of strings. *)
Definition getitem (d : gmap pystr pystr) (k : pystr) : outcome pystr :=
  match d !! k with
  | Some v => Ok v
  | None => Raise KeyError
  end.

(** [a, b = l] *)
Definition unpack2 (l : list pystr) : outcome (pystr * pystr) :=
  match l with
  | [a; b] => Ok (a, b)
  | _ => Raise ValueError
  end.

(** How an f-string renders what [data.get] returned. *)
Definition fmt (o : option pystr) : pystr := default (u "None") o.

Definition nl : pystr := [10].

(** [v == "literal"] for a decoded JSON value. *)
Definition py_eq_str (v : pyval) (lit : pystr) : bool :=
  match v with
  | PStr s => str_eqb s lit
  | _ => false
  end.

(** ** The functions of [ServerHook.py] *)

Section Webhook.
Context `{U : PyLib}.

Definition get_visitor_id (payload : pyval) : outcome pystr :=
  visitor ← (fun v => py_or v (PDict [])) <$> py_get payload (u "visitor");
  v ← (x ← py_get visitor (u "id");
       if truthy x then mret x else
       x ← py_get visitor (u "visitor_id");
       if truthy x then mret x else
       x ← py_get visitor (u "email");
       if truthy x then mret x else
       x ← py_get visitor (u "phone");
       if truthy x then mret x else
       x ← py_get visitor (u "ip");
       if truthy x then mret x else
       mret (PStr (u "anon")));
  mret (py_str v).

Definition build_reply (texts : texts_arg) (input_card : option InputCard)
    (action : pystr) : Reply :=
  let replies :=
    match texts with
    | OneText s => [s]
    | Texts l => l
    end in
  {| action := action; replies := replies; input := input_card |}.

Definition normalizar_texto (txt : option pystr) : pystr :=
  match txt with
  | None => []
  | Some [] => []
  | Some txt =>
      let txt := str_lower txt in
      let txt :=
        List.filter (fun c => negb (str_eqb (category c) (u "Mn")))
                    (normalize_NFD txt) in
      strip txt
  end.

Definition extraer_mensaje (payload : pyval) : outcome pystr :=
  msg_obj ← py_get payload (u "message");
  msg_obj ← (if negb (truthy msg_obj) then
               req_obj ← (fun r => py_or r (PDict [])) <$> py_get payload (u "request");
               py_get req_obj (u "message")
             else mret msg_obj);
  match msg_obj with
  | PDict _ =>
      txt ← (x ← py_get msg_obj (u "text");
             if truthy x then mret x else
             x ← py_get msg_obj (u "value");
             if truthy x then mret x else
             mret (PStr []));
      mret (strip (py_str txt))
  | PStr s => mret (strip s)
  | _ => mret []
  end.

Definition menu_card : InputCard :=
  {| type := u "select";
     options := [u "Solicitud Cotización"; u "Servicio PostVenta"] |}.

Definition formulario : pystr :=
  u "Perfecto, trabajaremos en su solicitud de cotización." ++ nl ++
  u "Por favor responda copiando y completando este formulario en un solo mensaje:" ++ nl ++ nl ++
  u "Nombre de la empresa:" ++ nl ++
  u "Giro:" ++ nl ++
  u "RUT:" ++ nl ++
  u "Nombre de contacto:" ++ nl ++
  u "Correo:" ++ nl ++
  u "Teléfono:" ++ nl ++
  u "Número de parte o descripción detallada:" ++ nl ++
  u "Marca:" ++ nl ++
  u "Cantidad:" ++ nl ++
  u "Dirección de entrega:".

Definition manejar_menu_principal (message_text : pystr) : M Session Reply :=
  let texto_norm := normalizar_texto (Some message_text) in
  if contains (u "cotiz") texto_norm
     || contains (u "solicitud cotizacion") texto_norm
     || str_eqb texto_norm (u "cotizacion")
  then
    _ ← set_state (u "cotizacion_bloque");
    mret (build_reply (OneText formulario) None (u "reply"))
  else if contains (u "postventa") texto_norm
          || contains (u "post venta") texto_norm
          || contains (u "servicio postventa") texto_norm
  then
    _ ← set_state (u "postventa_nombre");
    mret (build_reply
            (Texts [u "Perfecto, trabajaremos en su solicitud de postventa.";
                    u "Por favor, indique su nombre:"])
            None (u "reply"))
  else
    mret (build_reply
            (Texts [u "No he podido identificar la opción.";
                    u "Seleccione una de las siguientes opciones:"])
            (Some menu_card) (u "reply")).

Definition campos_en_blanco : gmap pystr pystr :=
  list_to_map
    [(u "empresa", []); (u "giro", []); (u "rut", []); (u "contacto", []);
     (u "correo", []); (u "telefono", []); (u "num_parte", []);
     (u "marca", []); (u "cantidad", []); (u "direccion_entrega", [])].

(** The body of [for linea in lineas]. *)
Definition leer_linea (campos : gmap pystr pystr) (linea : pystr)
  : outcome (gmap pystr pystr) :=
  if negb (contains (u ":") linea) then mret campos
  else
    '(etiqueta, valor) ← unpack2 (split1 58 linea);
    let etiqueta_norm := normalizar_texto (Some etiqueta) in
    let valor := strip valor in
    if contains (u "empresa") etiqueta_norm then
      mret (<[u "empresa" := valor]> campos)
    else if contains (u "giro") etiqueta_norm then
      mret (<[u "giro" := valor]> campos)
    else if in_tuple etiqueta_norm [u "rut"; u "r.u.t"; u "r u t"] then
      mret (<[u "rut" := valor]> campos)
    else if contains (u "contacto") etiqueta_norm then
      mret (<[u "contacto" := valor]> campos)
    else if contains (u "correo") etiqueta_norm
            || contains (u "email") etiqueta_norm then
      mret (<[u "correo" := valor]> campos)
    else if contains (u "telefono") etiqueta_norm
            || contains (u "teléfono") etiqueta_norm then
      mret (<[u "telefono" := valor]> campos)
    else if contains (u "numero de parte") etiqueta_norm
            || contains (u "número de parte") etiqueta_norm
            || contains (u "descripcion") etiqueta_norm then
      mret (<[u "num_parte" := valor]> campos)
    else if contains (u "marca") etiqueta_norm then
      mret (<[u "marca" := valor]> campos)
    else if contains (u "cantidad") etiqueta_norm then
      mret (<[u "cantidad" := valor]> campos)
    else if contains (u "direccion de entrega") etiqueta_norm
            || contains (u "dirección de entrega") etiqueta_norm then
      mret (<[u "direccion_entrega" := valor]> campos)
    else mret campos.

Fixpoint leer_lineas (campos : gmap pystr pystr) (lineas : list pystr)
  : outcome (gmap pystr pystr) :=
  match lineas with
  | [] => mret campos
  | linea :: lineas' =>
      campos' ← leer_linea campos linea;
      leer_lineas campos' lineas'
  end.

(** The parsing half of [manejar_flujo_cotizacion_bloque]: from the
    message to the filled [campos]. *)
Definition parse_campos (message_text : pystr) : outcome (gmap pystr pystr) :=
  let texto := str_or message_text [] in
  let lineas := splitlines texto in
  leer_lineas campos_en_blanco lineas.

Definition resumen_cotizacion (campos : gmap pystr pystr) : outcome pystr :=
  empresa ← getitem campos (u "empresa");
  giro ← getitem campos (u "giro");
  rut ← getitem campos (u "rut");
  contacto ← getitem campos (u "contacto");
  correo ← getitem campos (u "correo");
  telefono ← getitem campos (u "telefono");
  num_parte ← getitem campos (u "num_parte");
  marca ← getitem campos (u "marca");
  cantidad ← getitem campos (u "cantidad");
  direccion_entrega ← getitem campos (u "direccion_entrega");
  mret (u "Resumen de su solicitud de cotización:" ++ nl ++
        u "Nombre de la empresa: " ++ empresa ++ nl ++
        u "Giro: " ++ giro ++ nl ++
        u "RUT: " ++ rut ++ nl ++
        u "Nombre de contacto: " ++ contacto ++ nl ++
        u "Correo: " ++ correo ++ nl ++
        u "Teléfono: " ++ telefono ++ nl ++
        u "Número de parte / descripción: " ++ num_parte ++ nl ++
        u "Marca: " ++ marca ++ nl ++
        u "Cantidad: " ++ cantidad ++ nl ++
        u "Dirección de entrega: " ++ direccion_entrega).

Definition manejar_flujo_cotizacion_bloque (message_text : pystr)
  : M Session Reply :=
  campos ← lift (parse_campos message_text);
  _ ← data_update campos;
  resumen ← lift (resumen_cotizacion campos);
  _ ← set_state (u "menu_principal");
  mret {| action := u "reply";
          replies :=
            [u "Gracias. Hemos registrado su solicitud con el siguiente detalle:";
             resumen;
             u "Un ejecutivo de Selec se pondrá en contacto con usted."];
          input := None |}.

Definition manejar_flujo_postventa (message_text : pystr) : M Session Reply :=
  state ← get_state;
  if str_eqb state (u "postventa_nombre") then
    _ ← data_setitem (u "nombre") message_text;
    _ ← set_state (u "postventa_rut");
    mret (build_reply (OneText (u "Indique su RUT:")) None (u "reply"))
  else if str_eqb state (u "postventa_rut") then
    _ ← data_setitem (u "rut") message_text;
    _ ← set_state (u "postventa_numero_factura");
    mret (build_reply
            (OneText (u "Indique el número de factura (si lo tiene):"))
            None (u "reply"))
  else if str_eqb state (u "postventa_numero_factura") then
    _ ← data_setitem (u "numero_factura") message_text;
    _ ← set_state (u "postventa_detalle");
    mret (build_reply
            (OneText (u "Describa brevemente el problema o solicitud de postventa:"))
            None (u "reply"))
  else if str_eqb state (u "postventa_detalle") then
    _ ← data_setitem (u "detalle") message_text;
    nombre ← data_get (u "nombre");
    rut ← data_get (u "rut");
    numero_factura ← data_get (u "numero_factura");
    detalle ← data_get (u "detalle");
    let resumen :=
      u "Resumen de su solicitud de postventa:" ++ nl ++
      u "Nombre: " ++ fmt nombre ++ nl ++
      u "RUT: " ++ fmt rut ++ nl ++
      u "Número de factura: " ++ fmt numero_factura ++ nl ++
      u "Detalle: " ++ fmt detalle in
    _ ← set_state (u "menu_principal");
    mret {| action := u "reply";
            replies :=
              [u "Gracias. Hemos registrado su solicitud de postventa con el siguiente detalle:";
               resumen;
               u "Un ejecutivo se pondrá en contacto con usted."];
            input := None |}
  else
    _ ← set_state (u "menu_principal");
    mret (build_reply
            (Texts [u "Ha ocurrido un problema con la conversación.";
                    u "Volvamos al inicio. ¿Desea 'Solicitud Cotización' o 'Servicio PostVenta'?"])
            None (u "reply")).

(** The [handler == "message"] block of [salesiq_webhook], once the
    text is extracted: the dispatch on the session's state. *)
Definition despachar_mensaje (message_text : pystr) : M Session Reply :=
  state ← get_state;
  if in_tuple state [u "menu_principal"; u "inicio"] then
    manejar_menu_principal message_text
  else if str_eqb state (u "cotizacion_bloque") then
    manejar_flujo_cotizacion_bloque message_text
  else if startswith state (u "postventa_") then
    manejar_flujo_postventa message_text
  else
    _ ← set_state (u "menu_principal");
    mret (build_reply
            (Texts [u "No he comprendido su mensaje.";
                    u "Por favor, indique si desea 'Solicitud Cotización' o 'Servicio PostVenta'."])
            None (u "reply")).

Definition salesiq_webhook (method : http_method) (body : pyval)
  : M (gmap pystr Session) Response :=
  match method with
  | GET => mret (JsonStatus (u "ok") (u "Use POST desde Zoho SalesIQ"))
  | POST =>
      let payload := py_or body (PDict []) in
      handler ← lift (py_get payload (u "handler"));
      operation ← lift (py_get payload (u "operation"));
      visitor_id ← lift (get_visitor_id payload);
      _ ← setdefault visitor_id {| state := u "inicio"; data := ∅ |};
      if py_eq_str handler (u "trigger") then
        _ ← en_sesion visitor_id (set_state (u "menu_principal"));
        mret (JsonReply
                (build_reply
                   (Texts [u "¡Bienvenido! Gracias por contactar con Selec.";
                           u "Por favor, seleccione una de las siguientes opciones para atender su solicitud."])
                   (Some menu_card) (u "reply")))
      else if py_eq_str handler (u "message") then
        message_text ← lift (extraer_mensaje payload);
        JsonReply <$> en_sesion visitor_id (despachar_mensaje message_text)
      else
        mret (JsonReply
                (build_reply (OneText (u "He recibido su mensaje.")) None (u "reply")))
  end.

End Webhook.

(** ** An excerpt of the Unicode database

    The tables of Unicode 14.0, as the [unicodedata] module of Python 3.11
    has them, for Basic Latin and Latin-1 Supplement (U+0000-U+00FF), the
    Combining Diacritical Marks (U+0300-U+036F), U+1B44 BALINESE ADEG ADEG
    and U+302E HANGUL SINGLE DOT TONE MARK.  A code point outside the
    excerpt is treated as unassigned: category Cn, class 0, no
    decomposition, no case; the concrete runs below stay inside it. *)

(** General categories, by range. *)
Definition ucd_categories : list (N * N * pystr) :=
  [(0, 31, u "Cc"); (32, 32, u "Zs"); (33, 35, u "Po"); (36, 36, u "Sc");
   (37, 39, u "Po"); (40, 40, u "Ps"); (41, 41, u "Pe"); (42, 42, u "Po");
   (43, 43, u "Sm"); (44, 44, u "Po"); (45, 45, u "Pd"); (46, 47, u "Po");
   (48, 57, u "Nd"); (58, 59, u "Po"); (60, 62, u "Sm"); (63, 64, u "Po");
   (65, 90, u "Lu"); (91, 91, u "Ps"); (92, 92, u "Po"); (93, 93, u "Pe");
   (94, 94, u "Sk"); (95, 95, u "Pc"); (96, 96, u "Sk"); (97, 122, u "Ll");
   (123, 123, u "Ps"); (124, 124, u "Sm"); (125, 125, u "Pe"); (126, 126, u "Sm");
   (127, 159, u "Cc"); (160, 160, u "Zs"); (161, 161, u "Po"); (162, 165, u "Sc");
   (166, 166, u "So"); (167, 167, u "Po"); (168, 168, u "Sk"); (169, 169, u "So");
   (170, 170, u "Lo"); (171, 171, u "Pi"); (172, 172, u "Sm"); (173, 173, u "Cf");
   (174, 174, u "So"); (175, 175, u "Sk"); (176, 176, u "So"); (177, 177, u "Sm");
   (178, 179, u "No"); (180, 180, u "Sk"); (181, 181, u "Ll"); (182, 183, u "Po");
   (184, 184, u "Sk"); (185, 185, u "No"); (186, 186, u "Lo"); (187, 187, u "Pf");
   (188, 190, u "No"); (191, 191, u "Po"); (192, 214, u "Lu"); (215, 215, u "Sm");
   (216, 222, u "Lu"); (223, 246, u "Ll"); (247, 247, u "Sm"); (248, 255, u "Ll");
   (768, 879, u "Mn"); (6980, 6980, u "Mc"); (12334, 12334, u "Mc")].

(** Canonical combining classes other than 0, by range. *)
Definition ucd_combining_classes : list (N * N * N) :=
  [(768, 788, 230); (789, 789, 232); (790, 793, 220); (794, 794, 232);
   (795, 795, 216); (796, 800, 220); (801, 802, 202); (803, 806, 220);
   (807, 808, 202); (809, 819, 220); (820, 824, 1); (825, 828, 220);
   (829, 836, 230); (837, 837, 240); (838, 838, 230); (839, 841, 220);
   (842, 844, 230); (845, 846, 220); (848, 850, 230); (851, 854, 220);
   (855, 855, 230); (856, 856, 232); (857, 858, 220); (859, 859, 230);
   (860, 860, 233); (861, 862, 234); (863, 863, 233); (864, 865, 234);
   (866, 866, 233); (867, 879, 230); (6980, 6980, 9); (12334, 12334, 224)].

(** Canonical decompositions, fully expanded. *)
Definition ucd_decompositions : list (N * list N) :=
  [(192, [65; 768]); (193, [65; 769]); (194, [65; 770]); (195, [65; 771]);
   (196, [65; 776]); (197, [65; 778]); (199, [67; 807]); (200, [69; 768]);
   (201, [69; 769]); (202, [69; 770]); (203, [69; 776]); (204, [73; 768]);
   (205, [73; 769]); (206, [73; 770]); (207, [73; 776]); (209, [78; 771]);
   (210, [79; 768]); (211, [79; 769]); (212, [79; 770]); (213, [79; 771]);
   (214, [79; 776]); (217, [85; 768]); (218, [85; 769]); (219, [85; 770]);
   (220, [85; 776]); (221, [89; 769]); (224, [97; 768]); (225, [97; 769]);
   (226, [97; 770]); (227, [97; 771]); (228, [97; 776]); (229, [97; 778]);
   (231, [99; 807]); (232, [101; 768]); (233, [101; 769]); (234, [101; 770]);
   (235, [101; 776]); (236, [105; 768]); (237, [105; 769]); (238, [105; 770]);
   (239, [105; 776]); (241, [110; 771]); (242, [111; 768]); (243, [111; 769]);
   (244, [111; 770]); (245, [111; 771]); (246, [111; 776]); (249, [117; 768]);
   (250, [117; 769]); (251, [117; 770]); (252, [117; 776]); (253, [121; 769]);
   (255, [121; 776]); (832, [768]); (833, [769]); (835, [787]);
   (836, [776; 769])].

Definition in_range {A} (c : codepoint) (r : N * N * A) : bool :=
  (r.1.1 <=? c) && (c <=? r.1.2).

Definition ucd_category (c : codepoint) : pystr :=
  match find (in_range c) ucd_categories with
  | Some r => r.2
  | None => u "Cn"
  end.

Definition ucd_combining (c : codepoint) : N :=
  match find (in_range c) ucd_combining_classes with
  | Some r => r.2
  | None => 0
  end.

Definition ucd_decompose (c : codepoint) : pystr :=
  match find (fun r : N * list N => r.1 =? c) ucd_decompositions with
  | Some r => r.2
  | None => [c]
  end.

(** Canonical ordering: a character of non-zero class [k] moves left past
    the characters of greater class that precede it; [done] is the part
    already ordered, last character first. *)
Fixpoint ucd_insert (c : codepoint) (k : N) (done : pystr) : pystr :=
  match done with
  | d :: done' =>
      if k <? ucd_combining d then d :: ucd_insert c k done' else c :: done
  | [] => [c]
  end.

Definition ucd_reorder (s : pystr) : pystr :=
  rev (fold_left
         (fun done c =>
            if ucd_combining c =? 0 then c :: done
            else ucd_insert c (ucd_combining c) done)
         s []).

Definition ucd_nfd (s : pystr) : pystr :=
  ucd_reorder (flat_map ucd_decompose s).

Definition ucd_lower_char (c : codepoint) : codepoint :=
  if ((65 <=? c) && (c <=? 90))
     || ((192 <=? c) && (c <=? 222) && negb (c =? 215))
  then c + 32 else c.

(** [str] of [None], of a bool and of an int.  The [str] of a float, of a
    list or of a dict is not part of the excerpt: no run below takes it,
    and the mark stands for it. *)
Definition ucd_str (v : pyval) : pystr :=
  match v with
  | PNone => u "None"
  | PBool true => u "True"
  | PBool false => u "False"
  | PInt z => u (NilZero.string_of_int (Z.to_int z))
  | PStr s => s
  | _ => u "<object>"
  end.

Definition ucd : PyLib :=
  {| str_lower := map ucd_lower_char;
     normalize_NFD := ucd_nfd;
     category := ucd_category;
     str_nonstr := ucd_str |}.

(** ** Notions the statements use *)

Arguments u : simpl never.

Definition ascii (s : pystr) : Prop := Forall (fun c => c < 128) s.

Definition ascii_lower (c : codepoint) : codepoint :=
  if (65 <=? c) && (c <=? 90) then c + 32 else c.

(** What every Unicode version grants on ASCII text: [lower] acts letter
    by letter, NFD changes nothing and no character is a nonspacing mark. *)
Record ascii_faithful (U : PyLib) : Prop := {
  lower_ascii : forall s, ascii s -> str_lower s = map ascii_lower s;
  nfd_ascii : forall s, ascii s -> normalize_NFD s = s;
  category_ascii : forall c, c < 128 -> category c <> u "Mn"
}.

(** A value on which [(v or {}).get] is safe: a dict, or a falsy value. *)
Definition dict_o_falso (v : pyval) : Prop :=
  truthy v = false \/ exists d, v = PDict d.

(** A character that [lower] leaves alone. *)
Definition minuscula `{PyLib} (c : codepoint) : Prop := str_lower [c] = [c].

(** How [lower] and NFD go together in the Unicode tables: a string is
    unchanged by [lower] exactly when each of its characters is; [lower]
    returns such characters only; and the canonical decomposition of such
    characters consists of such characters. *)
Record lower_estable (U : PyLib) : Prop := {
  lower_por_caracter : forall s, str_lower s = s <-> Forall minuscula s;
  lower_minusculas : forall s, Forall minuscula (str_lower s);
  nfd_minusculas :
    forall s, Forall minuscula s -> Forall minuscula (normalize_NFD s)
}.

Definition estados_conocidos : list pystr :=
  [u "inicio"; u "menu_principal"; u "cotizacion_bloque";
   u "postventa_nombre"; u "postventa_rut"; u "postventa_numero_factura";
   u "postventa_detalle"].

(** The ten keys of the quote form. *)
Definition claves_cotizacion : list pystr :=
  [u "empresa"; u "giro"; u "rut"; u "contacto"; u "correo"; u "telefono";
   u "num_parte"; u "marca"; u "cantidad"; u "direccion_entrega"].

(** The session [sessions.setdefault] hands to the handlers. *)
Definition sesion_de (sessions : gmap pystr Session) (visitor_id : pystr)
  : Session :=
  default {| state := u "inicio"; data := ∅ |} (sessions !! visitor_id).

(** A label test of the form parser: some keyword occurs in the normalised
    label, or the normalised label is one of the given spellings. *)
Inductive prueba :=
  | Contiene (palabras : list pystr)
  | EsUnaDe (formas : list pystr).

Definition cumple (p : prueba) (etiqueta_norm : pystr) : bool :=
  match p with
  | Contiene palabras => existsb (fun w => contains w etiqueta_norm) palabras
  | EsUnaDe formas => in_tuple etiqueta_norm formas
  end.

(** The label tests in the order the parser tries them. *)
Definition reglas : list (pystr * prueba) :=
  [(u "empresa", Contiene [u "empresa"]);
   (u "giro", Contiene [u "giro"]);
   (u "rut", EsUnaDe [u "rut"; u "r.u.t"; u "r u t"]);
   (u "contacto", Contiene [u "contacto"]);
   (u "correo", Contiene [u "correo"; u "email"]);
   (u "telefono", Contiene [u "telefono"; u "teléfono"]);
   (u "num_parte", Contiene [u "numero de parte"; u "número de parte"; u "descripcion"]);
   (u "marca", Contiene [u "marca"]);
   (u "cantidad", Contiene [u "cantidad"]);
   (u "direccion_entrega", Contiene [u "direccion de entrega"; u "dirección de entrega"])].

(** The field of the first test, in order, that the label passes. *)
Definition campo_de_etiqueta (etiqueta_norm : pystr) : option pystr :=
  match find (fun r : pystr * prueba => cumple r.2 etiqueta_norm) reglas with
  | Some r => Some r.1
  | None => None
  end.

(** The label keywords of each field, as the specification lists them:
    every field is matched by substring. *)
Definition palabras_clave : list (pystr * list pystr) :=
  [(u "empresa", [u "empresa"]);
   (u "giro", [u "giro"]);
   (u "rut", [u "rut"; u "r.u.t"; u "r u t"]);
   (u "contacto", [u "contacto"]);
   (u "correo", [u "correo"; u "email"]);
   (u "telefono", [u "telefono"; u "teléfono"]);
   (u "num_parte", [u "numero de parte"; u "número de parte"; u "descripcion"]);
   (u "marca", [u "marca"]);
   (u "cantidad", [u "cantidad"]);
   (u "direccion_entrega", [u "direccion de entrega"; u "dirección de entrega"])].

Section Eventos.
Context `{U : PyLib}.

(** The field and the value a line of the form gives, if any. *)
Definition campo_de_linea (linea : pystr) : option (pystr * pystr) :=
  if contains (u ":") linea then
    match split1 58 linea with
    | [etiqueta; valor] =>
        match campo_de_etiqueta (normalizar_texto (Some etiqueta)) with
        | Some k => Some (k, strip valor)
        | None => None
        end
    | _ => None
    end
  else None.

(** What a line does to [campos]. *)
Definition anotar (campos : gmap pystr pystr) (linea : pystr)
  : gmap pystr pystr :=
  match campo_de_linea linea with
  | Some (k, v) => <[k := v]> campos
  | None => campos
  end.

(** The assignment rule as the specification words it: whenever a keyword
    of a field occurs in the normalised label of a line, that field gets
    the trimmed value. *)
Definition asigna_por_palabra_clave : Prop :=
  forall (campos : gmap pystr pystr) (etiqueta valor campo palabra : pystr)
         (palabras : list pystr),
    contains (u ":") etiqueta = false ->
    In (campo, palabras) palabras_clave ->
    In palabra palabras ->
    contains palabra (normalizar_texto (Some etiqueta)) = true ->
    exists campos',
      leer_linea campos (etiqueta ++ u ":" ++ valor) = Ok campos'
      /\ campos' !! campo = Some (strip valor).

(** [body] is a [message] event of visitor [visitor_id] carrying
    [message_text]. *)
Definition evento_mensaje (body : pyval) (visitor_id message_text : pystr)
  : Prop :=
  py_get (py_or body (PDict [])) (u "handler") = Ok (PStr (u "message"))
  /\ get_visitor_id (py_or body (PDict [])) = Ok visitor_id
  /\ extraer_mensaje (py_or body (PDict [])) = Ok message_text.

(** [body] is a [trigger] event of visitor [visitor_id]. *)
Definition evento_trigger (body : pyval) (visitor_id : pystr) : Prop :=
  py_get (py_or body (PDict [])) (u "handler") = Ok (PStr (u "trigger"))
  /\ get_visitor_id (py_or body (PDict [])) = Ok visitor_id.

(** [body] is an event of visitor [visitor_id] whose handler is neither
    ["trigger"] nor ["message"]. *)
Definition evento_otro (body : pyval) (visitor_id : pystr) : Prop :=
  (exists handler,
      py_get (py_or body (PDict [])) (u "handler") = Ok handler
      /\ py_eq_str handler (u "trigger") = false
      /\ py_eq_str handler (u "message") = false)
  /\ get_visitor_id (py_or body (PDict [])) = Ok visitor_id.

End Eventos.

Definition saludo : Reply :=
  {| action := u "reply";
     replies :=
       [u "¡Bienvenido! Gracias por contactar con Selec.";
        u "Por favor, seleccione una de las siguientes opciones para atender su solicitud."];
     input := Some {| type := u "select";
                      options := [u "Solicitud Cotización"; u "Servicio PostVenta"] |} |}.

(** The summary of a post-sale case, from what [data.get] gives for the
    first three answers and from the last answer. *)
Definition resumen_postventa (nombre rut numero_factura : option pystr)
    (detalle : pystr) : pystr :=
  u "Resumen de su solicitud de postventa:" ++ nl ++
  u "Nombre: " ++ fmt nombre ++ nl ++
  u "RUT: " ++ fmt rut ++ nl ++
  u "Número de factura: " ++ fmt numero_factura ++ nl ++
  u "Detalle: " ++ detalle.

Definition acuse : Reply :=
  {| action := u "reply";
     replies := [u "He recibido su mensaje."];
     input := None |}.

(** ** Notions of the further properties *)

(** [d.get(k)] on the pairs of a decoded object. *)
Definition valor_de (d : list (pystr * pyval)) (k : pystr) : pyval :=
  default PNone (assoc k d).

(** The fields of [visitor] in the order [get_visitor_id] tries them. *)
Definition campos_visitante : list pystr :=
  [u "id"; u "visitor_id"; u "email"; u "phone"; u "ip"].

(** The four keys of the post-sale flow. *)
Definition claves_postventa : list pystr :=
  [u "nombre"; u "rut"; u "numero_factura"; u "detalle"].

(** The shape of a body that [salesiq_webhook] answers: the body is falsy
    or a dict; its [visitor] is falsy or a dict; and, when the handler is
    ["message"] and [message] is falsy, its [request] is falsy or a dict. *)
Definition carga_valida (body : pyval) : Prop :=
  exists d,
    py_or body (PDict []) = PDict d
    /\ dict_o_falso (valor_de d (u "visitor"))
    /\ (valor_de d (u "handler") = PStr (u "message") ->
        truthy (valor_de d (u "message")) = true
        \/ dict_o_falso (valor_de d (u "request"))).

(** The reply that offers the menu again. *)
Definition menu_de_nuevo : Reply :=
  {| action := u "reply";
     replies := [u "No he podido identificar la opción.";
                 u "Seleccione una de las siguientes opciones:"];
     input := Some {| type := u "select";
                      options := [u "Solicitud Cotización"; u "Servicio PostVenta"] |} |}.

(** The reply that opens the post-sale flow. *)
Definition pide_nombre : Reply :=
  {| action := u "reply";
     replies := [u "Perfecto, trabajaremos en su solicitud de postventa.";
                 u "Por favor, indique su nombre:"];
     input := None |}.

(** The summary of a quote as the stored data render it. *)
Definition resumen_de_datos (datos : gmap pystr pystr) : pystr :=
  u "Resumen de su solicitud de cotización:" ++ nl ++
  u "Nombre de la empresa: " ++ default [] (datos !! u "empresa") ++ nl ++
  u "Giro: " ++ default [] (datos !! u "giro") ++ nl ++
  u "RUT: " ++ default [] (datos !! u "rut") ++ nl ++
  u "Nombre de contacto: " ++ default [] (datos !! u "contacto") ++ nl ++
  u "Correo: " ++ default [] (datos !! u "correo") ++ nl ++
  u "Teléfono: " ++ default [] (datos !! u "telefono") ++ nl ++
  u "Número de parte / descripción: " ++ default [] (datos !! u "num_parte") ++ nl ++
  u "Marca: " ++ default [] (datos !! u "marca") ++ nl ++
  u "Cantidad: " ++ default [] (datos !! u "cantidad") ++ nl ++
  u "Dirección de entrega: " ++ default [] (datos !! u "direccion_entrega").

(** The form template with a value written after each of its ten labels;
    with ten empty values it is [formulario] itself. *)
Definition rellenar (empresa giro rut contacto correo telefono num_parte
                     marca cantidad direccion_entrega : pystr) : pystr :=
  u "Perfecto, trabajaremos en su solicitud de cotización." ++ nl ++
  u "Por favor responda copiando y completando este formulario en un solo mensaje:" ++ nl ++ nl ++
  u "Nombre de la empresa:" ++ empresa ++ nl ++
  u "Giro:" ++ giro ++ nl ++
  u "RUT:" ++ rut ++ nl ++
  u "Nombre de contacto:" ++ contacto ++ nl ++
  u "Correo:" ++ correo ++ nl ++
  u "Teléfono:" ++ telefono ++ nl ++
  u "Número de parte o descripción detallada:" ++ num_parte ++ nl ++
  u "Marca:" ++ marca ++ nl ++
  u "Cantidad:" ++ cantidad ++ nl ++
  u "Dirección de entrega:" ++ direccion_entrega.

(** A value that fits on one line of the form. *)
Definition una_linea (v : pystr) : Prop :=
  Forall (fun c => is_linebreak c = false) v.

Section Servidor.
Context `{U : PyLib}.

(** A run of the server: the requests are handled one after the other on
    the same [sessions]; the answers come in the same order. *)
Fixpoint atender (peticiones : list (http_method * pyval))
    (sessions : gmap pystr Session)
  : gmap pystr Session * list (outcome Response) :=
  match peticiones with
  | [] => (sessions, [])
  | (method, body) :: peticiones' =>
      let (sessions1, r) := salesiq_webhook method body sessions in
      let (sessions2, rs) := atender peticiones' sessions1 in
      (sessions2, r :: rs)
  end.

(** The fields the lines of a form give, in order. *)
Definition campos_dados (lineas : list pystr) : list pystr :=
  omap (fun l => fst <$> campo_de_linea l) lineas.

End Servidor.

(** A reply of plain texts. *)
Definition textos (l : list pystr) : Reply :=
  {| action := u "reply"; replies := l; input := None |}.

Section Transiciones.
Context `{U : PyLib}.

(** The transition table of the conversation: [paso s txt s' r] when a
    message [txt] met in session [s] leaves the session as [s'] and is
    answered by [r]. *)
Inductive paso (s : Session) (txt : pystr) : Session -> Reply -> Prop :=
  | paso_cotizar :
      In (state s) [u "menu_principal"; u "inicio"] ->
      contains (u "cotiz") (normalizar_texto (Some txt)) = true ->
      paso s txt {| state := u "cotizacion_bloque"; data := data s |}
           (textos [formulario])
  | paso_postventa :
      In (state s) [u "menu_principal"; u "inicio"] ->
      contains (u "cotiz") (normalizar_texto (Some txt)) = false ->
      contains (u "postventa") (normalizar_texto (Some txt))
      || contains (u "post venta") (normalizar_texto (Some txt)) = true ->
      paso s txt {| state := u "postventa_nombre"; data := data s |} pide_nombre
  | paso_reintento :
      In (state s) [u "menu_principal"; u "inicio"] ->
      contains (u "cotiz") (normalizar_texto (Some txt)) = false ->
      contains (u "postventa") (normalizar_texto (Some txt))
      || contains (u "post venta") (normalizar_texto (Some txt)) = false ->
      paso s txt s menu_de_nuevo
  | paso_formulario campos :
      state s = u "cotizacion_bloque" ->
      parse_campos txt = Ok campos ->
      paso s txt {| state := u "menu_principal"; data := campos ∪ data s |}
           (textos [u "Gracias. Hemos registrado su solicitud con el siguiente detalle:";
                    resumen_de_datos campos;
                    u "Un ejecutivo de Selec se pondrá en contacto con usted."])
  | paso_nombre :
      state s = u "postventa_nombre" ->
      paso s txt {| state := u "postventa_rut";
                    data := <[u "nombre" := txt]> (data s) |}
           (textos [u "Indique su RUT:"])
  | paso_rut :
      state s = u "postventa_rut" ->
      paso s txt {| state := u "postventa_numero_factura";
                    data := <[u "rut" := txt]> (data s) |}
           (textos [u "Indique el número de factura (si lo tiene):"])
  | paso_factura :
      state s = u "postventa_numero_factura" ->
      paso s txt {| state := u "postventa_detalle";
                    data := <[u "numero_factura" := txt]> (data s) |}
           (textos [u "Describa brevemente el problema o solicitud de postventa:"])
  | paso_detalle :
      state s = u "postventa_detalle" ->
      paso s txt {| state := u "menu_principal";
                    data := <[u "detalle" := txt]> (data s) |}
           (textos [u "Gracias. Hemos registrado su solicitud de postventa con el siguiente detalle:";
                    resumen_postventa (data s !! u "nombre") (data s !! u "rut")
                                      (data s !! u "numero_factura") txt;
                    u "Un ejecutivo se pondrá en contacto con usted."])
  | paso_recuperar :
      startswith (state s) (u "postventa_") = true ->
      ~ In (state s) [u "postventa_nombre"; u "postventa_rut";
                      u "postventa_numero_factura"; u "postventa_detalle"] ->
      paso s txt {| state := u "menu_principal"; data := data s |}
           (textos [u "Ha ocurrido un problema con la conversación.";
                    u "Volvamos al inicio. ¿Desea 'Solicitud Cotización' o 'Servicio PostVenta'?"])
  | paso_desconocido :
      ~ In (state s) [u "menu_principal"; u "inicio"; u "cotizacion_bloque"] ->
      startswith (state s) (u "postventa_") = false ->
      paso s txt {| state := u "menu_principal"; data := data s |}
           (textos [u "No he comprendido su mensaje.";
                    u "Por favor, indique si desea 'Solicitud Cotización' o 'Servicio PostVenta'."]).

End Transiciones.

(** A session as the server leaves it: a known state, and no key in its
    data besides those of the two flows. *)
Definition sesion_sana (s : Session) : Prop :=
  In (state s) estados_conocidos
  /\ forall k, is_Some (data s !! k) ->
               In k (claves_cotizacion ++ claves_postventa).

(** A run of one visitor: a trigger, a post-sale case begun, a GET, a
    body that raises, a second trigger and a quote form. *)
Definition corrida_de_muestra : list (http_method * pyval) :=
  let visitante := (u "visitor", PDict [(u "id", PStr (u "v1"))]) in
  let mensaje t :=
    (POST, PDict [(u "handler", PStr (u "message")); visitante;
                  (u "message", PDict [(u "text", PStr t)])]) in
  [(POST, PDict [(u "handler", PStr (u "trigger")); visitante]);
   mensaje (u "Servicio PostVenta");
   mensaje (u "Ana Rojas");
   (GET, PNone);
   (POST, PDict [(u "visitor", PStr (u "v1"))]);
   (POST, PDict [(u "handler", PStr (u "trigger")); visitante]);
   mensaje (u "Solicitud Cotización");
   mensaje (u "Marca: Siemens" ++ nl ++ u "Cantidad: 10")].

(** * Properties *)

(** ** Strings *)

Lemma str_eqb_true (a b : pystr) : str_eqb a b = true <-> a = b.
Proof. unfold str_eqb. apply bool_decide_eq_true. Qed.

Lemma str_eqb_false (a b : pystr) : str_eqb a b = false <-> a <> b.
Proof. unfold str_eqb. apply bool_decide_eq_false. Qed.

Lemma in_tuple_true (x : pystr) (t : list pystr) :
  in_tuple x t = true <-> In x t.
Proof.
  unfold in_tuple. rewrite existsb_exists. split.
  - intros (y & Hy & Heq). apply str_eqb_true in Heq. now subst.
  - intros Hin. exists x. split; [assumption | now apply str_eqb_true].
Qed.

Lemma in_tuple_false (x : pystr) (t : list pystr) :
  in_tuple x t = false <-> ~ In x t.
Proof.
  rewrite <- in_tuple_true. destruct (in_tuple x t); split; congruence.
Qed.

(** Membership of a literal in a list of literals, by evaluation. *)
Ltac en_lista := apply in_tuple_true; vm_compute; reflexivity.

Lemma contains_char (c : codepoint) (s : pystr) :
  contains [c] s = true <-> In c s.
Proof.
  induction s as [|d s IH]; simpl.
  - split; [discriminate | tauto].
  - rewrite orb_true_iff, IH, andb_true_r, N.eqb_eq. intuition congruence.
Qed.

Lemma contains_char_false (c : codepoint) (s : pystr) :
  contains [c] s = false <-> ~ In c s.
Proof.
  rewrite <- contains_char. destruct (contains [c] s); split; congruence.
Qed.

(** [split(sep, 1)] cuts at the first separator, and only there. *)
Lemma split1_first (sep : codepoint) (s : pystr) :
  In sep s ->
  exists a b, split1 sep s = [a; b] /\ s = a ++ sep :: b /\ ~ In sep a.
Proof.
  induction s as [|c s IH]; simpl; [tauto |].
  intros Hin. destruct (N.eqb_spec c sep) as [-> | Hne].
  - exists [], s. simpl. tauto.
  - destruct Hin as [-> | Hin]; [congruence |].
    destruct (IH Hin) as (a & b & -> & -> & Hnot).
    exists (c :: a), b. simpl. intuition congruence.
Qed.

(** There is one way to cut a string at its first separator. *)
Lemma primer_corte_unico (sep : codepoint) (a b a' b' : pystr) :
  a ++ sep :: b = a' ++ sep :: b' -> ~ In sep a -> ~ In sep a' ->
  a = a' /\ b = b'.
Proof.
  revert a'. induction a as [|c a IH]; intros [|c' a']; simpl; intros Heq Ha Ha'.
  - injection Heq as ->. tauto.
  - injection Heq as <- _. tauto.
  - injection Heq as -> _. tauto.
  - injection Heq as -> Heq. destruct (IH a' Heq) as [-> ->]; tauto.
Qed.

Lemma split1_none (sep : codepoint) (s : pystr) :
  ~ In sep s -> split1 sep s = [s].
Proof.
  induction s as [|c s IH]; simpl; [reflexivity |].
  intros Hnot. destruct (N.eqb_spec c sep) as [-> | Hne]; [tauto |].
  rewrite IH by tauto. reflexivity.
Qed.

Lemma lstrip_suffix (s : pystr) :
  exists w, s = w ++ lstrip s /\ forallb is_space w = true.
Proof.
  induction s as [|c s (w & IH & Hw)]; simpl.
  - now exists [].
  - destruct (is_space c) eqn:Hc.
    + exists (c :: w). simpl. rewrite Hc, Hw. split; [now f_equal | reflexivity].
    + now exists [].
Qed.

Lemma lstrip_head (s : pystr) :
  match lstrip s with c :: _ => is_space c = false | [] => True end.
Proof.
  induction s as [|c s IH]; simpl; [exact I |].
  destruct (is_space c) eqn:Hc; [exact IH | exact Hc].
Qed.

Lemma lstrip_fixed (s : pystr) :
  match s with c :: _ => is_space c = false | [] => True end -> lstrip s = s.
Proof. destruct s as [|c s]; simpl; [reflexivity | now intros ->]. Qed.

Lemma lstrip_idem (s : pystr) : lstrip (lstrip s) = lstrip s.
Proof. apply lstrip_fixed, lstrip_head. Qed.

Lemma rstrip_prefix (s : pystr) :
  exists w, s = rstrip s ++ w /\ forallb is_space w = true.
Proof.
  unfold rstrip. destruct (lstrip_suffix (rev s)) as (w & Hs & Hw).
  exists (rev w). split.
  - rewrite <- (rev_involutive s), Hs at 1. now rewrite rev_app_distr.
  - rewrite forallb_forall in *. intros x Hx. apply Hw. now apply in_rev.
Qed.

Lemma strip_incl (s : pystr) (c : codepoint) : In c (strip s) -> In c s.
Proof.
  unfold strip. intros Hin.
  destruct (rstrip_prefix (lstrip s)) as (w & Hr & _).
  destruct (lstrip_suffix s) as (w' & Hl & _).
  rewrite Hl, Hr, !in_app_iff. tauto.
Qed.

Lemma strip_idem (s : pystr) : strip (strip s) = strip s.
Proof.
  unfold strip.
  assert (Hl : lstrip (rstrip (lstrip s)) = rstrip (lstrip s)).
  { apply lstrip_fixed.
    destruct (rstrip_prefix (lstrip s)) as (w & Hr & _).
    pose proof (lstrip_head s) as Hh. rewrite Hr in Hh.
    destruct (rstrip (lstrip s)); [exact I | exact Hh]. }
  rewrite Hl. unfold rstrip at 1. unfold rstrip at 1.
  rewrite rev_involutive, lstrip_idem. reflexivity.
Qed.

(** ** The normaliser *)

Section Normalizador.
Context `{U : PyLib}.

Lemma normalizar_sin_marcas (txt : option pystr) (c : codepoint) :
  In c (normalizar_texto txt) -> category c <> u "Mn".
Proof.
  destruct txt as [[|c0 s]|]; simpl; try tauto.
  intros Hin%strip_incl. apply filter_In in Hin as [_ Hc].
  apply negb_true_iff, str_eqb_false in Hc. exact Hc.
Qed.

Lemma normalizar_recortado (txt : option pystr) :
  strip (normalizar_texto txt) = normalizar_texto txt.
Proof.
  destruct txt as [[|c0 s]|]; simpl; try reflexivity. apply strip_idem.
Qed.

Lemma filter_sin_marcas (s : pystr) :
  (forall c, In c s -> category c <> u "Mn") ->
  List.filter (fun c => negb (str_eqb (category c) (u "Mn"))) s = s.
Proof.
  induction s as [|c s IH]; simpl; intros Hs; [reflexivity |].
  assert (Hc : str_eqb (category c) (u "Mn") = false)
    by (apply str_eqb_false, Hs; now left).
  rewrite Hc. simpl. f_equal. apply IH. intros d Hd. apply Hs. now right.
Qed.

(** A normalised text that [lower] and NFD leave alone is a fixed point. *)
Lemma normalizar_fijo (txt : option pystr) :
  let out := normalizar_texto txt in
  str_lower out = out -> normalize_NFD out = out ->
  normalizar_texto (Some out) = out.
Proof.
  intros out Hlow Hnfd.
  pose proof (normalizar_sin_marcas txt) as Hmn.
  pose proof (normalizar_recortado txt) as Hstrip.
  fold out in Hmn, Hstrip.
  unfold normalizar_texto at 1. destruct out as [|c s] eqn:Hout; [reflexivity |].
  rewrite Hlow, Hnfd, filter_sin_marcas by exact Hmn. exact Hstrip.
Qed.

(** With the tables as they are, the normalised text is lowercase. *)
Lemma normalizar_minusculas (txt : option pystr) :
  lower_estable U ->
  str_lower (normalizar_texto txt) = normalizar_texto txt.
Proof.
  intros [Hchar Hlow Hnfd]. apply Hchar.
  destruct txt as [[|c0 s]|]; simpl; try constructor.
  apply Forall_forall. intros c Hc%list_elem_of_In.
  apply strip_incl, filter_In in Hc as [Hc _].
  specialize (Hnfd _ (Hlow (c0 :: s))). rewrite Forall_forall in Hnfd.
  now apply Hnfd, list_elem_of_In.
Qed.

End Normalizador.

Lemma ascii_lower_ascii (c : codepoint) : c < 128 -> ascii_lower c < 128.
Proof.
  unfold ascii_lower. intros Hc.
  destruct ((65 <=? c) && (c <=? 90)) eqn:Hl; [| exact Hc].
  apply andb_true_iff in Hl as [Ha Hb]. apply N.leb_le in Ha, Hb. lia.
Qed.

Lemma ascii_lower_idem (c : codepoint) :
  ascii_lower (ascii_lower c) = ascii_lower c.
Proof.
  unfold ascii_lower.
  destruct ((65 <=? c) && (c <=? 90)) eqn:Hc; [| now rewrite Hc].
  apply andb_true_iff in Hc as [Ha Hb]. apply N.leb_le in Ha, Hb.
  replace ((65 <=? c + 32) && (c + 32 <=? 90)) with false; [reflexivity |].
  symmetry. apply andb_false_iff. right. apply N.leb_gt. lia.
Qed.

Lemma ascii_strip (s : pystr) : ascii s -> ascii (strip s).
Proof.
  unfold ascii. rewrite !List.Forall_forall.
  intros Hs c Hc. apply Hs. now apply strip_incl.
Qed.

(** On ASCII text the normaliser lower-cases letter by letter and trims. *)
Lemma normalizar_ascii `{U : PyLib} (s : pystr) :
  ascii_faithful U -> ascii s ->
  normalizar_texto (Some s) = strip (map ascii_lower s).
Proof.
  intros [Hlow Hnfd Hcat] Hs. destruct s as [|c s]; [reflexivity |].
  unfold normalizar_texto.
  assert (Hm : ascii (map ascii_lower (c :: s))).
  { unfold ascii in *. rewrite List.Forall_forall in *. intros d Hd.
    apply in_map_iff in Hd as (d' & <- & Hd'). apply ascii_lower_ascii. auto. }
  rewrite (Hlow _ Hs), (Hnfd _ Hm), filter_sin_marcas; [reflexivity |].
  intros d Hd. apply Hcat. unfold ascii in Hm.
  rewrite List.Forall_forall in Hm. auto.
Qed.

(** ** The excerpt is faithful on ASCII *)

Lemma find_none {A} (f : A -> bool) (l : list A) :
  forallb (fun x => negb (f x)) l = true -> find f l = None.
Proof.
  induction l as [|x l IH]; simpl; [reflexivity |].
  intros [Hx Hl]%andb_true_iff. apply negb_true_iff in Hx.
  rewrite Hx. auto.
Qed.

Lemma ucd_lower_char_ascii (c : codepoint) :
  c < 128 -> ucd_lower_char c = ascii_lower c.
Proof.
  intros Hc. unfold ucd_lower_char, ascii_lower.
  replace (192 <=? c) with false by (symmetry; apply N.leb_gt; lia).
  simpl. now rewrite orb_false_r.
Qed.

Lemma ucd_decompose_ascii (c : codepoint) : c < 128 -> ucd_decompose c = [c].
Proof.
  intros Hc. unfold ucd_decompose. rewrite find_none; [reflexivity |].
  apply forallb_forall. intros r Hr. apply negb_true_iff, N.eqb_neq.
  assert (Hlo : forallb (fun r : N * list N => 128 <=? r.1) ucd_decompositions = true)
    by reflexivity.
  rewrite forallb_forall in Hlo. specialize (Hlo r Hr). apply N.leb_le in Hlo.
  destruct r as [k l]. cbn [fst snd] in *. lia.
Qed.

Lemma ucd_combining_ascii (c : codepoint) : c < 128 -> ucd_combining c = 0.
Proof.
  intros Hc. unfold ucd_combining. rewrite find_none; [reflexivity |].
  apply forallb_forall. intros r Hr. apply negb_true_iff.
  assert (Hlo : forallb (fun r : N * N * N => 128 <=? r.1.1) ucd_combining_classes = true)
    by reflexivity.
  rewrite forallb_forall in Hlo. specialize (Hlo r Hr). apply N.leb_le in Hlo.
  unfold in_range. destruct r as [[lo hi] k]. cbn [fst snd] in *.
  apply andb_false_iff. left. apply N.leb_gt. lia.
Qed.

Lemma ucd_category_ascii (c : codepoint) : c < 128 -> ucd_category c <> u "Mn".
Proof.
  intros Hc. unfold ucd_category.
  destruct (find (in_range c) ucd_categories) as [r|] eqn:Hf; [| discriminate].
  apply find_some in Hf as [Hr Hin].
  assert (Hlo : forallb (fun r : N * N * pystr =>
                           negb (str_eqb r.2 (u "Mn")) || (128 <=? r.1.1))
                        ucd_categories = true) by reflexivity.
  rewrite forallb_forall in Hlo. specialize (Hlo r Hr).
  destruct r as [[lo hi] k]. cbn [fst snd] in *.
  apply orb_true_iff in Hlo as [Hne | Hge].
  - now apply negb_true_iff, str_eqb_false in Hne.
  - apply N.leb_le in Hge. unfold in_range in Hin.
    apply andb_true_iff in Hin as [Hin _]. apply N.leb_le in Hin.
    cbn [fst snd] in Hin. exfalso. lia.
Qed.

Lemma ucd_reorder_starters (s done : pystr) :
  Forall (fun c => ucd_combining c = 0) s ->
  fold_left (fun done c =>
               if ucd_combining c =? 0 then c :: done
               else ucd_insert c (ucd_combining c) done) s done
  = rev s ++ done.
Proof.
  revert done. induction s as [|c s IH]; intros done Hs; simpl; [reflexivity |].
  inversion Hs as [|? ? Hc Hs']; subst. rewrite Hc. simpl.
  rewrite IH by assumption. now rewrite <- app_assoc.
Qed.

Lemma ucd_nfd_ascii (s : pystr) : ascii s -> ucd_nfd s = s.
Proof.
  intros Hs. unfold ucd_nfd.
  assert (Hd : flat_map ucd_decompose s = s).
  { induction Hs as [|c s Hc Hs IH]; simpl; [reflexivity |].
    now rewrite ucd_decompose_ascii, IH. }
  rewrite Hd. unfold ucd_reorder. rewrite ucd_reorder_starters.
  - now rewrite app_nil_r, rev_involutive.
  - eapply List.Forall_impl; [| exact Hs]. intros c Hc. now apply ucd_combining_ascii.
Qed.

Lemma ucd_lower_char_idem (c : codepoint) :
  ucd_lower_char (ucd_lower_char c) = ucd_lower_char c.
Proof.
  unfold ucd_lower_char.
  destruct (((65 <=? c) && (c <=? 90))
            || ((192 <=? c) && (c <=? 222) && negb (c =? 215))) eqn:Hc;
    [| now rewrite Hc].
  replace (((65 <=? c + 32) && (c + 32 <=? 90))
           || ((192 <=? c + 32) && (c + 32 <=? 222) && negb (c + 32 =? 215)))
    with false; [reflexivity |].
  symmetry. apply orb_true_iff in Hc as [Hc | Hc].
  - apply andb_true_iff in Hc as [Ha Hb]. apply N.leb_le in Ha, Hb.
    apply orb_false_iff. split.
    + apply andb_false_iff. right. apply N.leb_gt. lia.
    + apply andb_false_iff. left. apply andb_false_iff. left.
      apply N.leb_gt. lia.
  - apply andb_true_iff in Hc as [Hc _].
    apply andb_true_iff in Hc as [Ha Hb]. apply N.leb_le in Ha, Hb.
    apply orb_false_iff. split.
    + apply andb_false_iff. right. apply N.leb_gt. lia.
    + apply andb_false_iff. left. apply andb_false_iff. right.
      apply N.leb_gt. lia.
Qed.

Lemma ucd_insert_in (c x : codepoint) (k : N) (done : pystr) :
  In c (ucd_insert x k done) -> c = x \/ In c done.
Proof.
  induction done as [|d done IH]; simpl; [intuition congruence |].
  destruct (k <? ucd_combining d); simpl; intuition congruence.
Qed.

Lemma ucd_reorder_in (c : codepoint) (s : pystr) :
  In c (ucd_reorder s) -> In c s.
Proof.
  unfold ucd_reorder. rewrite <- in_rev.
  assert (H : forall done,
             In c (fold_left
                     (fun done c =>
                        if ucd_combining c =? 0 then c :: done
                        else ucd_insert c (ucd_combining c) done) s done) ->
             In c s \/ In c done).
  { induction s as [|x s IH]; intros done; simpl; [tauto |].
    intros [Hs | Hd]%IH; [tauto |].
    destruct (ucd_combining x =? 0); [simpl in Hd; intuition congruence |].
    apply ucd_insert_in in Hd. intuition congruence. }
  intros [Hs | []]%H. exact Hs.
Qed.

Lemma ucd_decompose_minusculas (c d : codepoint) :
  ucd_lower_char c = c -> In d (ucd_decompose c) -> ucd_lower_char d = d.
Proof.
  unfold ucd_decompose. intros Hc.
  destruct (find _ ucd_decompositions) as [r|] eqn:Hf.
  - apply find_some in Hf as [Hr Hk]. apply N.eqb_eq in Hk.
    assert (Hall : forallb
                     (fun r : N * list N =>
                        implb (ucd_lower_char r.1 =? r.1)
                              (forallb (fun d => ucd_lower_char d =? d) r.2))
                     ucd_decompositions = true) by reflexivity.
    rewrite forallb_forall in Hall. specialize (Hall r Hr).
    rewrite Hk in Hall. apply N.eqb_eq in Hc. rewrite Hc in Hall.
    simpl in Hall. rewrite forallb_forall in Hall.
    intros Hd. now apply N.eqb_eq, Hall.
  - intros [<- | []]. exact Hc.
Qed.

Lemma ucd_lower_estable : lower_estable ucd.
Proof.
  assert (Hmin : forall c, @minuscula ucd c <-> ucd_lower_char c = c).
  { intros c. unfold minuscula. simpl. split; congruence. }
  split.
  - intros s. simpl. induction s as [|c s IH]; simpl.
    + split; [constructor | reflexivity].
    + split.
      * intros [= Hc Hs]. constructor; [now apply Hmin | now apply IH].
      * intros Hs. apply Forall_cons in Hs as [Hc%Hmin Hs].
        now rewrite Hc, (proj2 IH Hs).
  - intros s. simpl. apply Forall_forall. intros c Hc%list_elem_of_In.
    apply in_map_iff in Hc as (d & <- & _). apply Hmin, ucd_lower_char_idem.
  - intros s Hs. simpl. apply Forall_forall. intros c Hc%list_elem_of_In.
    unfold ucd_nfd in Hc. apply ucd_reorder_in, in_flat_map in Hc as (d & Hd & Hc).
    apply Hmin. apply (ucd_decompose_minusculas d c); [| exact Hc].
    apply Hmin. rewrite Forall_forall in Hs. now apply Hs, list_elem_of_In.
Qed.

Lemma ucd_ascii_faithful : ascii_faithful ucd.
Proof.
  split; simpl.
  - intros s Hs. apply map_ext_in. intros c Hc. apply ucd_lower_char_ascii.
    unfold ascii in Hs. rewrite List.Forall_forall in Hs. auto.
  - exact ucd_nfd_ascii.
  - exact ucd_category_ascii.
Qed.

Lemma minusculas_ascii (s : pystr) :
  ascii s -> ascii (strip (map ascii_lower s)).
Proof.
  intros Hs. apply ascii_strip. unfold ascii in *.
  rewrite List.Forall_forall in *.
  intros d (d' & <- & Hd')%in_map_iff. apply ascii_lower_ascii. auto.
Qed.

Lemma minusculas_fijas (s : pystr) :
  map ascii_lower (strip (map ascii_lower s)) = strip (map ascii_lower s).
Proof.
  rewrite <- (map_id (strip (map ascii_lower s))) at 2.
  apply map_ext_in. intros c Hc%strip_incl.
  apply in_map_iff in Hc as (d & <- & _). apply ascii_lower_idem.
Qed.

(** C7 (as amended).  For every text, [normalizar_texto] returns a string
    without nonspacing marks (category Mn) and without leading or trailing
    whitespace; a null or empty text gives the empty string; the result is
    a fixed point of [normalizar_texto] whenever [lower] and NFD leave it
    unchanged; it is lowercase when [lower] and NFD go together as in the
    Unicode tables ([lower_estable]); for an ASCII text it is the trimmed,
    letter-by-letter lower-cased text, lowercase and a fixed point; and
    [normalizar_texto("Cotización")] is ["cotizacion"]. *)
Theorem normalizar_texto_propiedades :
  (forall (U : PyLib) (txt : option pystr),
      let out := normalizar_texto txt in
      (forall c, In c out -> category c <> u "Mn")
      /\ strip out = out
      /\ (txt = None \/ txt = Some [] -> out = [])
      /\ (str_lower out = out -> normalize_NFD out = out ->
          normalizar_texto (Some out) = out)
      /\ (lower_estable U -> str_lower out = out)
      /\ (ascii_faithful U ->
          forall s, txt = Some s -> ascii s ->
            out = strip (map ascii_lower s)
            /\ str_lower out = out
            /\ normalizar_texto (Some out) = out))
  /\ @normalizar_texto ucd (Some (u "Cotización")) = u "cotizacion".
Proof.
  split; [| reflexivity].
  intros U txt out.
  split; [apply normalizar_sin_marcas |].
  split; [apply normalizar_recortado |].
  split; [intros [-> | ->]; reflexivity |].
  split; [apply normalizar_fijo |].
  split; [apply normalizar_minusculas |].
  intros HU s -> Hs. subst out.
  assert (Hout : normalizar_texto (Some s) = strip (map ascii_lower s))
    by now apply normalizar_ascii.
  assert (Hlow : str_lower (normalizar_texto (Some s)) = normalizar_texto (Some s)).
  { rewrite Hout, (lower_ascii U HU) by now apply minusculas_ascii.
    apply minusculas_fijas. }
  repeat split; [exact Hout | exact Hlow |].
  apply normalizar_fijo; [exact Hlow |].
  rewrite Hout. apply (nfd_ascii U HU). now apply minusculas_ascii.
Qed.

(** C7, witness: an ASCII message and an accented one, on the excerpt. *)
Lemma normalizar_texto_propiedades_witness :
  (let out := @normalizar_texto ucd (Some (u "  Solicitud COTIZACION ")) in
   out = u "solicitud cotizacion"
   /\ @str_lower ucd out = out
   /\ @normalizar_texto ucd (Some out) = out)
  /\ (let out := @normalizar_texto ucd (Some (u "SERVICIO Técnico")) in
      @str_lower ucd out = out
      /\ @normalizar_texto ucd (Some out) = out).
Proof.
  destruct normalizar_texto_propiedades as [H _]. split.
  - destruct (H ucd (Some (u "  Solicitud COTIZACION ")))
      as (_ & _ & _ & _ & _ & Hascii).
    assert (Ha : ascii (u "  Solicitud COTIZACION "))
      by (vm_compute; repeat constructor).
    destruct (Hascii ucd_ascii_faithful (u "  Solicitud COTIZACION ") eq_refl Ha)
      as (Hout & Hlow & Hfix).
    split; [| split]; [| exact Hlow | exact Hfix].
    rewrite Hout. reflexivity.
  - destruct (H ucd (Some (u "SERVICIO Técnico")))
      as (_ & _ & _ & Hfix & Hlow & _).
    split; [exact (Hlow ucd_lower_estable) |].
    apply Hfix; [exact (Hlow ucd_lower_estable) | reflexivity].
Defined.

(** C7, counterexample: idempotence fails.  U+302E (class 224), U+034F
    COMBINING GRAPHEME JOINER (Mn, class 0) and U+1B44 (class 9) are in
    canonical order while the joiner separates the two marks; once the
    joiner is filtered out, the second NFD exchanges them. *)
Lemma normalizar_texto_no_idempotente :
  let s := [12334; 847; 6980] in
  @normalizar_texto ucd (Some s) = [12334; 6980]
  /\ @normalizar_texto ucd (Some (@normalizar_texto ucd (Some s))) = [6980; 12334]
  /\ ~ (forall (U : PyLib) (txt : option pystr),
          normalizar_texto (Some (normalizar_texto txt)) = normalizar_texto txt).
Proof.
  repeat split.
  intros H. specialize (H ucd (Some [12334; 847; 6980])).
  vm_compute in H. discriminate H.
Qed.

(** ** The webhook on well-formed events *)

Section Maquina.
Context `{U : PyLib}.

Lemma py_get_dict (obj : pyval) (key : pystr) (v : pyval) :
  py_get obj key = Ok v -> exists d, obj = PDict d.
Proof. destruct obj; simpl; try discriminate. eauto. Qed.

Lemma py_eq_str_true (v : pyval) (lit : pystr) :
  py_eq_str v lit = true <-> v = PStr lit.
Proof.
  destruct v; simpl; try (split; discriminate).
  rewrite str_eqb_true. split; congruence.
Qed.

Lemma insert_sesion_de (sessions : gmap pystr Session) (vid : pystr) (s' : Session) :
  match sessions !! vid with
  | Some _ => <[vid := s']> sessions
  | None => <[vid := s']> (<[vid := {| state := u "inicio"; data := ∅ |}]> sessions)
  end = <[vid := s']> sessions.
Proof. destruct (sessions !! vid); [reflexivity | apply insert_insert_eq]. Qed.

(** A [message] event runs the dispatch on the visitor's session object
    and leaves the other sessions alone. *)
Lemma webhook_mensaje (sessions : gmap pystr Session) (body : pyval)
    (vid txt : pystr) :
  evento_mensaje body vid txt ->
  salesiq_webhook POST body sessions =
    (<[vid := (despachar_mensaje txt (sesion_de sessions vid)).1]> sessions,
     JsonReply <$> (despachar_mensaje txt (sesion_de sessions vid)).2).
Proof.
  intros (Hh & Hv & Hm). unfold salesiq_webhook.
  destruct (py_get_dict _ _ _ Hh) as [d Hd]. rewrite Hd in *.
  rewrite Hv, Hm. simpl in Hh. injection Hh as Hh.
  unfold mbind, M_bind, lift, py_get. rewrite Hh.
  change (py_eq_str (PStr (u "message")) (u "trigger")) with false.
  change (py_eq_str (PStr (u "message")) (u "message")) with true.
  cbv iota. unfold setdefault, fmap, M_fmap, en_sesion, sesion_de.
  destruct (sessions !! vid) as [s|] eqn:Hs; simpl.
  - rewrite Hs.
    destruct (despachar_mensaje txt s) as [s' [r|e]]; reflexivity.
  - rewrite lookup_insert_eq.
    destruct (despachar_mensaje txt _) as [s' [r|e]]; simpl;
      now rewrite insert_insert_eq.
Qed.

Lemma webhook_trigger (sessions : gmap pystr Session) (body : pyval)
    (vid : pystr) :
  evento_trigger body vid ->
  salesiq_webhook POST body sessions =
    (<[vid := {| state := u "menu_principal";
                 data := data (sesion_de sessions vid) |}]> sessions,
     Ok (JsonReply saludo)).
Proof.
  intros (Hh & Hv). unfold salesiq_webhook.
  destruct (py_get_dict _ _ _ Hh) as [d Hd]. rewrite Hd in *.
  rewrite Hv. simpl in Hh. injection Hh as Hh.
  unfold mbind, M_bind, lift, py_get. rewrite Hh.
  change (py_eq_str (PStr (u "trigger")) (u "trigger")) with true.
  cbv iota. unfold setdefault, en_sesion, set_state, sesion_de.
  destruct (sessions !! vid) as [s|] eqn:Hs; simpl.
  - rewrite Hs. reflexivity.
  - rewrite lookup_insert_eq. simpl. now rewrite insert_insert_eq.
Qed.

Lemma webhook_otro (sessions : gmap pystr Session) (body : pyval)
    (vid : pystr) :
  evento_otro body vid ->
  salesiq_webhook POST body sessions =
    (match sessions !! vid with
     | Some _ => sessions
     | None => <[vid := {| state := u "inicio"; data := ∅ |}]> sessions
     end,
     Ok (JsonReply acuse)).
Proof.
  intros ((h & Hh & Ht & Hm) & Hv). unfold salesiq_webhook.
  destruct (py_get_dict _ _ _ Hh) as [d Hd]. rewrite Hd in *.
  rewrite Hv. simpl in Hh. injection Hh as Hh.
  unfold mbind, M_bind, lift, py_get. rewrite Hh, Ht, Hm.
  unfold setdefault.
  destruct (sessions !! vid) as [s|] eqn:Hs; reflexivity.
Qed.

Lemma py_or_dict (v : pyval) :
  dict_o_falso v -> exists d, py_or v (PDict []) = PDict d.
Proof.
  unfold py_or. intros [-> | [d ->]]; [eauto |].
  destruct (truthy (PDict d)); eauto.
Qed.

Lemma get_visitor_id_ok (d : list (pystr * pyval)) :
  dict_o_falso (default PNone (assoc (u "visitor") d)) ->
  exists vid, get_visitor_id (PDict d) = Ok vid.
Proof.
  intros [d' Hd']%py_or_dict. unfold get_visitor_id.
  cbn [py_get fmap outcome_fmap mbind outcome_bind]. rewrite Hd'.
  cbn [py_get mbind outcome_bind].
  repeat match goal with
         | |- context [if truthy ?v then _ else _] => destruct (truthy v)
         end; eexists; reflexivity.
Qed.

Lemma extraer_mensaje_ok (d : list (pystr * pyval)) :
  truthy (default PNone (assoc (u "message") d)) = true
  \/ dict_o_falso (default PNone (assoc (u "request") d)) ->
  exists txt, extraer_mensaje (PDict d) = Ok txt.
Proof.
  intros Hd. unfold extraer_mensaje.
  cbn [py_get fmap outcome_fmap mbind outcome_bind].
  assert (Hm : forall m : pyval,
             exists txt,
               match m with
               | PDict _ =>
                   txt ← (x ← py_get m (u "text");
                          if truthy x then mret x else
                          x ← py_get m (u "value");
                          if truthy x then mret x else mret (PStr []));
                   mret (strip (py_str txt))
               | PStr s => mret (strip s)
               | _ => mret []
               end = Ok txt).
  { intros m. destruct m; try (eexists; reflexivity).
    cbn [py_get mbind outcome_bind].
    repeat match goal with
           | |- context [if truthy ?v then _ else _] => destruct (truthy v)
           end; eexists; reflexivity. }
  destruct (truthy (default PNone (assoc (u "message") d))) eqn:Ht.
  - cbn [negb mret outcome_ret mbind outcome_bind]. apply Hm.
  - destruct Hd as [Hd | [d' Hd']%py_or_dict]; [discriminate |].
    cbn [negb]. rewrite Hd'. cbn [py_get mbind outcome_bind]. apply Hm.
Qed.

End Maquina.

(** ** The form parser *)

Section Formulario.
Context `{U : PyLib}.

(** One turn of the loop never raises, and does what [anotar] says: the
    chain of [elif] is the ordered list [reglas]. *)
Lemma leer_linea_anotar (campos : gmap pystr pystr) (linea : pystr) :
  leer_linea campos linea = Ok (anotar campos linea).
Proof.
  unfold leer_linea, anotar, campo_de_linea.
  destruct (contains (u ":") linea) eqn:Hc; [| reflexivity].
  change (u ":") with [58] in Hc. apply contains_char in Hc.
  destruct (split1_first 58 linea Hc) as (etiqueta & valor & -> & _ & _).
  cbn [negb unpack2 mbind outcome_bind].
  unfold campo_de_etiqueta, reglas. 
  generalize (normalizar_texto (Some etiqueta)) as e. intros e.
  cbn [find cumple existsb snd fst in_tuple].
  rewrite ?orb_false_r, ?orb_assoc.
  repeat match goal with
         | |- context [if ?b then _ else _] => destruct b; [reflexivity |]
         end.
  reflexivity.
Qed.

Lemma leer_lineas_anotar (campos : gmap pystr pystr) (lineas : list pystr) :
  leer_lineas campos lineas = Ok (fold_left anotar lineas campos).
Proof.
  revert campos. induction lineas as [|linea lineas IH]; intros campos; simpl.
  - reflexivity.
  - rewrite leer_linea_anotar. simpl. apply IH.
Qed.

Lemma parse_campos_anotar (message_text : pystr) :
  parse_campos message_text
  = Ok (fold_left anotar (splitlines message_text) campos_en_blanco).
Proof.
  unfold parse_campos. rewrite leer_lineas_anotar.
  now destruct message_text.
Qed.

(** The parser only ever writes one of the ten keys. *)
Lemma campo_de_etiqueta_clave (e k : pystr) :
  campo_de_etiqueta e = Some k -> In k claves_cotizacion.
Proof.
  unfold campo_de_etiqueta.
  destruct (find _ reglas) as [r|] eqn:Hf; [| discriminate].
  intros [= <-]. apply find_some in Hf as [Hr _].
  assert (Hall : forallb (fun r : pystr * prueba => in_tuple r.1 claves_cotizacion)
                         reglas = true) by reflexivity.
  rewrite forallb_forall in Hall. now apply in_tuple_true, Hall.
Qed.

Lemma campo_de_linea_clave (linea k v : pystr) :
  campo_de_linea linea = Some (k, v) -> In k claves_cotizacion.
Proof.
  unfold campo_de_linea. destruct (contains _ linea); [| discriminate].
  destruct (split1 58 linea) as [|a [|b [|? ?]]]; try discriminate.
  destruct (campo_de_etiqueta _) as [k'|] eqn:Hk; [| discriminate].
  intros [= <- _]. eapply campo_de_etiqueta_clave, Hk.
Qed.

Lemma anotar_otro (campos : gmap pystr pystr) (linea k : pystr) :
  (forall v, campo_de_linea linea <> Some (k, v)) ->
  anotar campos linea !! k = campos !! k.
Proof.
  unfold anotar. intros Hk.
  destruct (campo_de_linea linea) as [[k' v]|]; [| reflexivity].
  apply lookup_insert_ne. intros ->. now apply (Hk v).
Qed.

Lemma anotar_campo (campos : gmap pystr pystr) (linea k v : pystr) :
  campo_de_linea linea = Some (k, v) -> anotar campos linea !! k = Some v.
Proof. unfold anotar. intros ->. apply lookup_insert_eq. Qed.

Lemma anotar_todas_otro (campos : gmap pystr pystr) (lineas : list pystr)
    (k : pystr) :
  (forall l, In l lineas -> forall v, campo_de_linea l <> Some (k, v)) ->
  fold_left anotar lineas campos !! k = campos !! k.
Proof.
  revert campos. induction lineas as [|l lineas IH]; intros campos Hk; simpl.
  - reflexivity.
  - rewrite IH by (intros; apply Hk; now right).
    apply anotar_otro, Hk. now left.
Qed.

Lemma anotar_presente (campos : gmap pystr pystr) (linea k : pystr) :
  is_Some (campos !! k) -> is_Some (anotar campos linea !! k).
Proof.
  unfold anotar. destruct (campo_de_linea linea) as [[k' v]|]; [| trivial].
  intros Hk. rewrite lookup_insert. case_decide; eauto.
Qed.

Lemma anotar_todas_presente (campos : gmap pystr pystr) (lineas : list pystr)
    (k : pystr) :
  is_Some (campos !! k) -> is_Some (fold_left anotar lineas campos !! k).
Proof.
  revert campos. induction lineas as [|l lineas IH]; intros campos Hk; simpl.
  - exact Hk.
  - now apply IH, anotar_presente.
Qed.

Lemma anotar_todas_ajeno (campos : gmap pystr pystr) (lineas : list pystr)
    (k : pystr) :
  ~ In k claves_cotizacion ->
  fold_left anotar lineas campos !! k = campos !! k.
Proof.
  intros Hk. apply anotar_todas_otro. intros l _ v Hl.
  apply Hk. eapply campo_de_linea_clave, Hl.
Qed.

Lemma campos_en_blanco_clave (k : pystr) :
  In k claves_cotizacion -> campos_en_blanco !! k = Some [].
Proof.
  unfold claves_cotizacion. simpl.
  intros H. repeat (destruct H as [<- | H]; [reflexivity |]). destruct H.
Qed.

Lemma campos_en_blanco_ajeno (k : pystr) :
  ~ In k claves_cotizacion -> campos_en_blanco !! k = None.
Proof.
  intros Hk. unfold campos_en_blanco.
  apply not_elem_of_list_to_map_1. rewrite list_elem_of_In.
  exact Hk.
Qed.

(** The summary finds its ten fields in what the parser returns. *)
Lemma resumen_cotizacion_ok (campos : gmap pystr pystr) :
  (forall k, In k claves_cotizacion -> is_Some (campos !! k)) ->
  exists resumen, resumen_cotizacion campos = Ok resumen.
Proof.
  intros Hk. unfold resumen_cotizacion, getitem.
  repeat match goal with
         | |- context [campos !! ?k] =>
             let v := fresh "v" in let Hv := fresh "Hv" in
             destruct (Hk k) as [v Hv]; [simpl; tauto |]; rewrite Hv;
             cbn [mbind outcome_bind]
         end.
  eexists. reflexivity.
Qed.

End Formulario.

(** ** The handlers *)

Section Manejadores.
Context `{U : PyLib}.

Lemma despachar_menu (s : Session) (txt : pystr) :
  In (state s) [u "menu_principal"; u "inicio"] ->
  despachar_mensaje txt s = manejar_menu_principal txt s.
Proof.
  intros Hs%in_tuple_true. unfold despachar_mensaje, get_state.
  unfold mbind at 1, M_bind. now rewrite Hs.
Qed.

Lemma despachar_cotizacion (s : Session) (txt : pystr) :
  state s = u "cotizacion_bloque" ->
  despachar_mensaje txt s = manejar_flujo_cotizacion_bloque txt s.
Proof.
  intros Hs. unfold despachar_mensaje, get_state.
  unfold mbind at 1, M_bind. now rewrite Hs.
Qed.

Lemma despachar_postventa (s : Session) (txt : pystr) :
  In (state s) [u "postventa_nombre"; u "postventa_rut";
                u "postventa_numero_factura"; u "postventa_detalle"] ->
  despachar_mensaje txt s = manejar_flujo_postventa txt s.
Proof.
  intros Hs. unfold despachar_mensaje, get_state.
  unfold mbind at 1, M_bind.
  simpl in Hs. decompose [or] Hs; try contradiction;
    match goal with H : _ = state s |- _ => rewrite <- H end; reflexivity.
Qed.

(** The quote flow never raises. *)
Lemma manejar_flujo_cotizacion_bloque_ok (s : Session) (txt : pystr) :
  exists campos resumen,
    parse_campos txt = Ok campos
    /\ resumen_cotizacion campos = Ok resumen
    /\ manejar_flujo_cotizacion_bloque txt s =
       ({| state := u "menu_principal"; data := campos ∪ data s |},
        Ok {| action := u "reply";
              replies :=
                [u "Gracias. Hemos registrado su solicitud con el siguiente detalle:";
                 resumen;
                 u "Un ejecutivo de Selec se pondrá en contacto con usted."];
              input := None |}).
Proof.
  destruct (resumen_cotizacion_ok
              (fold_left anotar (splitlines txt) campos_en_blanco))
    as [resumen Hr].
  { intros k Hk. apply anotar_todas_presente.
    rewrite campos_en_blanco_clave by assumption. eauto. }
  exists (fold_left anotar (splitlines txt) campos_en_blanco), resumen.
  split; [apply parse_campos_anotar |]. split; [exact Hr |].
  unfold manejar_flujo_cotizacion_bloque.
  rewrite parse_campos_anotar.
  unfold mbind, M_bind, lift, data_update, set_state. simpl.
  rewrite Hr. reflexivity.
Qed.

End Manejadores.

(** ** The conversation state machine *)

Section Conversacion.
Context `{U : PyLib}.

(** The dispatch always answers, and leaves a known state. *)
Lemma despachar_mensaje_estado (s : Session) (txt : pystr) :
  exists s' r,
    despachar_mensaje txt s = (s', Ok r)
    /\ In (state s') estados_conocidos
    /\ replies r <> []
    /\ (~ In (state s) estados_conocidos -> state s' = u "menu_principal").
Proof.
  unfold despachar_mensaje, get_state. unfold mbind at 1, M_bind.
  destruct (in_tuple (state s) [u "menu_principal"; u "inicio"]) eqn:Hmenu.
  { apply in_tuple_true in Hmenu.
    assert (Hs : In (state s) estados_conocidos)
      by (destruct Hmenu as [<- | [<- | []]]; en_lista).
    unfold manejar_menu_principal.
    repeat match goal with
           | |- context [if ?b then _ else _] => destruct b
           end;
      (eexists; eexists; split; [reflexivity |]; split;
       [first [exact Hs | en_lista] | split; [discriminate | tauto]]). }
  destruct (str_eqb (state s) (u "cotizacion_bloque")) eqn:Hcot.
  { destruct (manejar_flujo_cotizacion_bloque_ok s txt)
      as (campos & resumen & _ & _ & ->).
    apply str_eqb_true in Hcot.
    eexists; eexists; split; [reflexivity |]; split; [en_lista |].
    split; [discriminate |].
    intros Hs. exfalso. apply Hs. rewrite Hcot. en_lista. }
  destruct (startswith (state s) (u "postventa_")) eqn:Hpost.
  { unfold manejar_flujo_postventa, get_state. unfold mbind at 1, M_bind.
    repeat match goal with
           | |- context [if str_eqb (state s) ?l then _ else _] =>
               let H := fresh "Heq" in
               destruct (str_eqb (state s) l) eqn:H;
               [apply str_eqb_true in H;
                eexists; eexists; split; [reflexivity |]; split;
                [en_lista |]; split; [discriminate |];
                intros Hs; exfalso; apply Hs; rewrite H; en_lista |]
           end.
    eexists; eexists; split; [reflexivity |]; split; [en_lista |].
    split; [discriminate | reflexivity]. }
  eexists; eexists; split; [reflexivity |]; split; [en_lista |].
  split; [discriminate | reflexivity].
Qed.

(** C3.  After a [message] event the visitor's session is in one of the
    seven known states; and when the state before was none of them (an
    unknown [postventa_] state included), the state after is
    [menu_principal] and the reply carries at least one text. *)
Theorem estado_conocido_tras_mensaje (sessions : gmap pystr Session)
    (body : pyval) (vid txt : pystr) :
  evento_mensaje body vid txt ->
  exists sessions' s' r,
    salesiq_webhook POST body sessions = (sessions', Ok (JsonReply r))
    /\ sessions' !! vid = Some s'
    /\ In (state s') estados_conocidos
    /\ (~ In (state (sesion_de sessions vid)) estados_conocidos ->
        state s' = u "menu_principal" /\ replies r <> []).
Proof.
  intros Hev. rewrite (webhook_mensaje _ _ _ _ Hev).
  destruct (despachar_mensaje_estado (sesion_de sessions vid) txt)
    as (s' & r & -> & Hs' & Hr & Hfall).
  exists (<[vid := s']> sessions), s', r. simpl.
  split; [reflexivity |]. split; [apply lookup_insert_eq |]. tauto.
Qed.

(** C1.  A [message] event met in state [menu_principal] or [inicio]
    whose normalised text contains ["cotiz"] moves the session to
    [cotizacion_bloque] and answers with the form template alone; nothing
    is asked about ["postventa"], so a text with both takes this branch. *)
Theorem cotizacion_antes_que_postventa (sessions : gmap pystr Session)
    (body : pyval) (vid txt : pystr) :
  evento_mensaje body vid txt ->
  In (state (sesion_de sessions vid)) [u "menu_principal"; u "inicio"] ->
  contains (u "cotiz") (normalizar_texto (Some txt)) = true ->
  salesiq_webhook POST body sessions =
    (<[vid := {| state := u "cotizacion_bloque";
                 data := data (sesion_de sessions vid) |}]> sessions,
     Ok (JsonReply {| action := u "reply";
                      replies := [formulario];
                      input := None |})).
Proof.
  intros Hev Hs Hc. rewrite (webhook_mensaje _ _ _ _ Hev).
  rewrite despachar_menu by exact Hs.
  unfold manejar_menu_principal. rewrite Hc. reflexivity.
Qed.

(** C5.  A [trigger] event sets the visitor's state to [menu_principal],
    whatever it was, and answers with the greeting and the select menu of
    ["Solicitud Cotización"] and ["Servicio PostVenta"]; a second
    [trigger] gives the same state and the same reply. *)
Theorem trigger_reinicia (sessions : gmap pystr Session)
    (body1 body2 : pyval) (vid : pystr) :
  evento_trigger body1 vid ->
  evento_trigger body2 vid ->
  exists sessions1,
    salesiq_webhook POST body1 sessions = (sessions1, Ok (JsonReply saludo))
    /\ state <$> sessions1 !! vid = Some (u "menu_principal")
    /\ salesiq_webhook POST body2 sessions1 = (sessions1, Ok (JsonReply saludo)).
Proof.
  intros H1 H2. rewrite (webhook_trigger _ _ _ H1).
  eexists. split; [reflexivity |].
  split; [now rewrite lookup_insert_eq |].
  rewrite (webhook_trigger _ _ _ H2). f_equal.
  unfold sesion_de. rewrite lookup_insert_eq. simpl.
  apply insert_insert_eq.
Qed.

(** The four steps of the post-sale flow. *)
Lemma manejar_flujo_postventa_pasos (s : Session) (txt : pystr) :
  let resultado estado datos textos :=
    ({| state := estado; data := datos |},
     Ok {| action := u "reply"; replies := textos; input := None |}) in
  (state s = u "postventa_nombre" ->
   manejar_flujo_postventa txt s =
     resultado (u "postventa_rut") (<[u "nombre" := txt]> (data s))
               [u "Indique su RUT:"])
  /\ (state s = u "postventa_rut" ->
      manejar_flujo_postventa txt s =
        resultado (u "postventa_numero_factura") (<[u "rut" := txt]> (data s))
                  [u "Indique el número de factura (si lo tiene):"])
  /\ (state s = u "postventa_numero_factura" ->
      manejar_flujo_postventa txt s =
        resultado (u "postventa_detalle")
                  (<[u "numero_factura" := txt]> (data s))
                  [u "Describa brevemente el problema o solicitud de postventa:"])
  /\ (state s = u "postventa_detalle" ->
      manejar_flujo_postventa txt s =
        resultado (u "menu_principal") (<[u "detalle" := txt]> (data s))
                  [u "Gracias. Hemos registrado su solicitud de postventa con el siguiente detalle:";
                   resumen_postventa (data s !! u "nombre") (data s !! u "rut")
                                     (data s !! u "numero_factura") txt;
                   u "Un ejecutivo se pondrá en contacto con usted."]).
Proof.
  intros resultado.
  split; [| split; [| split]]; intros Hs;
    unfold manejar_flujo_postventa, get_state;
    unfold mbind at 1, M_bind; rewrite Hs; try reflexivity.
  change (str_eqb (u "postventa_detalle") (u "postventa_nombre")) with false.
  change (str_eqb (u "postventa_detalle") (u "postventa_rut")) with false.
  change (str_eqb (u "postventa_detalle") (u "postventa_numero_factura")) with false.
  change (str_eqb (u "postventa_detalle") (u "postventa_detalle")) with true.
  cbv iota. unfold resultado, resumen_postventa, mbind, M_bind,
    data_setitem, data_get, set_state. cbn [data state].
  rewrite lookup_insert_eq.
  rewrite !lookup_insert_ne by (apply str_eqb_false; reflexivity).
  reflexivity.
Qed.

(** C6.  In the states [postventa_nombre], [postventa_rut] and
    [postventa_numero_factura] the message text is stored as it is under
    [nombre], [rut] and [numero_factura] and the state moves to the next
    step; in [postventa_detalle] it is stored under [detalle], the reply
    carries the summary of the four stored values and the state becomes
    [menu_principal]. *)
Theorem postventa_pasos (sessions : gmap pystr Session)
    (body : pyval) (vid txt : pystr) :
  evento_mensaje body vid txt ->
  let s := sesion_de sessions vid in
  let resultado estado datos textos :=
    (<[vid := {| state := estado; data := datos |}]> sessions,
     Ok (JsonReply {| action := u "reply"; replies := textos; input := None |})) in
  (state s = u "postventa_nombre" ->
   salesiq_webhook POST body sessions =
     resultado (u "postventa_rut") (<[u "nombre" := txt]> (data s))
               [u "Indique su RUT:"])
  /\ (state s = u "postventa_rut" ->
      salesiq_webhook POST body sessions =
        resultado (u "postventa_numero_factura") (<[u "rut" := txt]> (data s))
                  [u "Indique el número de factura (si lo tiene):"])
  /\ (state s = u "postventa_numero_factura" ->
      salesiq_webhook POST body sessions =
        resultado (u "postventa_detalle")
                  (<[u "numero_factura" := txt]> (data s))
                  [u "Describa brevemente el problema o solicitud de postventa:"])
  /\ (state s = u "postventa_detalle" ->
      salesiq_webhook POST body sessions =
        resultado (u "menu_principal") (<[u "detalle" := txt]> (data s))
                  [u "Gracias. Hemos registrado su solicitud de postventa con el siguiente detalle:";
                   resumen_postventa (data s !! u "nombre") (data s !! u "rut")
                                     (data s !! u "numero_factura") txt;
                   u "Un ejecutivo se pondrá en contacto con usted."]).
Proof.
  intros Hev s resultado. rewrite (webhook_mensaje _ _ _ _ Hev). fold s.
  destruct (manejar_flujo_postventa_pasos s txt) as (H1 & H2 & H3 & H4).
  split; [| split; [| split]]; intros Hs;
    (rewrite despachar_postventa by (rewrite Hs; en_lista)).
  - now rewrite (H1 Hs).
  - now rewrite (H2 Hs).
  - now rewrite (H3 Hs).
  - now rewrite (H4 Hs).
Qed.

(** C10.  In state [cotizacion_bloque] a message writes the ten keys of
    the quote form into the session's data with what the parser returned,
    the empty string for a field no line gave, and leaves every other key
    alone; the tax id of the quote form and the one of the post-sale flow
    are the same key [rut], so the quote form replaces (erases, without a
    RUT line) the latter, and an answer in [postventa_rut] replaces the
    former. *)
Theorem cotizacion_sobrescribe (sessions : gmap pystr Session)
    (body : pyval) (vid txt : pystr) :
  evento_mensaje body vid txt ->
  let s := sesion_de sessions vid in
  (state s = u "cotizacion_bloque" ->
   exists campos r s',
     parse_campos txt = Ok campos
     /\ salesiq_webhook POST body sessions = (<[vid := s']> sessions, Ok (JsonReply r))
     /\ state s' = u "menu_principal"
     /\ (forall k, In k claves_cotizacion ->
           data s' !! k = campos !! k
           /\ is_Some (campos !! k)
           /\ ((forall l, In l (splitlines txt) ->
                  forall v, campo_de_linea l <> Some (k, v)) ->
               data s' !! k = Some []))
     /\ (forall k, ~ In k claves_cotizacion -> data s' !! k = data s !! k))
  /\ In (u "rut") claves_cotizacion
  /\ (state s = u "postventa_rut" ->
      exists r s',
        salesiq_webhook POST body sessions = (<[vid := s']> sessions, Ok (JsonReply r))
        /\ data s' !! u "rut" = Some txt).
Proof.
  intros Hev s. split; [| split].
  - intros Hs. rewrite (webhook_mensaje _ _ _ _ Hev). fold s.
    rewrite despachar_cotizacion by exact Hs.
    destruct (manejar_flujo_cotizacion_bloque_ok s txt)
      as (campos & resumen & Hparse & _ & ->).
    exists campos. eexists.
    exists {| state := u "menu_principal"; data := campos ∪ data s |}.
    split; [exact Hparse |].
    split; [reflexivity |]. split; [reflexivity |]. cbn [data state].
    rewrite parse_campos_anotar in Hparse. injection Hparse as <-.
    split.
    + intros k Hk.
      assert (Hsome : is_Some (fold_left anotar (splitlines txt) campos_en_blanco !! k)).
      { apply anotar_todas_presente. rewrite campos_en_blanco_clave; eauto. }
      split; [| split; [exact Hsome |]].
      * destruct Hsome as [v Hv]. rewrite Hv. now apply lookup_union_Some_l.
      * intros Hno. apply lookup_union_Some_l.
        rewrite anotar_todas_otro by exact Hno.
        now apply campos_en_blanco_clave.
    + intros k Hk. apply lookup_union_r.
      rewrite anotar_todas_ajeno by exact Hk. now apply campos_en_blanco_ajeno.
  - simpl. tauto.
  - intros Hs. rewrite (webhook_mensaje _ _ _ _ Hev). fold s.
    rewrite despachar_postventa by (rewrite Hs; en_lista).
    destruct (manejar_flujo_postventa_pasos s txt) as (_ & H2 & _).
    rewrite (H2 Hs).
    eexists. eexists. split; [reflexivity |]. apply lookup_insert_eq.
Qed.

(** C4 (as amended).  An event whose handler is neither ["trigger"] nor
    ["message"] gets the acknowledgement and changes no session that is
    in the store: state and data of each stay as they were; when the
    visitor has none yet, [setdefault] has put a fresh one (state
    [inicio], no data) in the store. *)
Theorem otro_evento_conserva (sessions : gmap pystr Session)
    (body : pyval) (vid : pystr) :
  evento_otro body vid ->
  exists sessions',
    salesiq_webhook POST body sessions = (sessions', Ok (JsonReply acuse))
    /\ (forall v s, sessions !! v = Some s -> sessions' !! v = Some s)
    /\ (forall v, v <> vid -> sessions' !! v = sessions !! v)
    /\ sessions' !! vid = Some (sesion_de sessions vid).
Proof.
  intros Hev. rewrite (webhook_otro _ _ _ Hev). eexists.
  split; [reflexivity |]. unfold sesion_de.
  destruct (sessions !! vid) as [s0|] eqn:Hvid.
  - split; [auto |]. split; [auto |]. exact Hvid.
  - split; [| split].
    + intros v s Hv. rewrite lookup_insert_ne; [exact Hv | congruence].
    + intros v Hv. now rewrite lookup_insert_ne.
    + apply lookup_insert_eq.
Qed.

(** C9, the failing inputs.  A body whose [visitor] is a string, a body
    that is a non-empty list, and a [message] event whose [request] is a
    string each end in [AttributeError]; the last one after [setdefault]
    has stored the visitor's session. *)
Theorem carga_malformada_lanza (sessions : gmap pystr Session) :
  salesiq_webhook POST (PDict [(u "visitor", PStr (u "abc"))]) sessions
    = (sessions, Raise AttributeError)
  /\ salesiq_webhook POST (PList [PInt 1]) sessions
     = (sessions, Raise AttributeError)
  /\ salesiq_webhook POST
       (PDict [(u "handler", PStr (u "message")); (u "request", PStr (u "x"))]) ∅
     = ({[u "anon" := {| state := u "inicio"; data := ∅ |}]},
        Raise AttributeError).
Proof. split; [| split]; reflexivity. Qed.

(** What holds of C9: a body that is falsy or a dict, whose [visitor] is
    falsy or a dict and whose [message] is truthy or whose [request] is
    falsy or a dict, always gets a reply with at least one text. *)
Lemma webhook_responde (sessions : gmap pystr Session) (body : pyval) :
  dict_o_falso body ->
  (forall d, py_or body (PDict []) = PDict d ->
     dict_o_falso (default PNone (assoc (u "visitor") d))
     /\ (truthy (default PNone (assoc (u "message") d)) = true
         \/ dict_o_falso (default PNone (assoc (u "request") d)))) ->
  exists sessions' r,
    salesiq_webhook POST body sessions = (sessions', Ok (JsonReply r))
    /\ replies r <> [].
Proof.
  intros [d Hd]%py_or_dict Hshape. destruct (Hshape d Hd) as [Hv Hm].
  destruct (get_visitor_id_ok d Hv) as [vid Hvid].
  destruct (extraer_mensaje_ok d Hm) as [txt Htxt].
  set (h := default PNone (assoc (u "handler") d)).
  destruct (py_eq_str h (u "trigger")) eqn:Ht.
  { apply py_eq_str_true in Ht.
    rewrite (webhook_trigger sessions body vid).
    - eexists; eexists; split; [reflexivity | discriminate].
    - split; rewrite Hd; [simpl; fold h; now rewrite Ht | exact Hvid]. }
  destruct (py_eq_str h (u "message")) eqn:Hmsg.
  { apply py_eq_str_true in Hmsg.
    rewrite (webhook_mensaje sessions body vid txt).
    - destruct (despachar_mensaje_estado (sesion_de sessions vid) txt)
        as (s' & r & -> & _ & Hr & _).
      eexists; eexists; split; [reflexivity | exact Hr].
    - split; [| split]; rewrite Hd;
        [simpl; fold h; now rewrite Hmsg | exact Hvid | exact Htxt]. }
  rewrite (webhook_otro sessions body vid).
  - eexists; eexists; split; [reflexivity | discriminate].
  - split; [| now rewrite Hd]. exists h. rewrite Hd. auto.
Qed.

(** C8.  Of the lines that give a value to a field, the last one decides:
    whatever the lines before it, the parser returns for the field the
    value of a line that no later line of the same field follows. *)
Theorem ultima_linea_gana (texto : pystr) (antes despues : list pystr)
    (linea k v : pystr) :
  splitlines texto = antes ++ linea :: despues ->
  campo_de_linea linea = Some (k, v) ->
  (forall l, In l despues -> forall v', campo_de_linea l <> Some (k, v')) ->
  exists campos, parse_campos texto = Ok campos /\ campos !! k = Some v.
Proof.
  intros Hsplit Hlinea Hdespues. rewrite parse_campos_anotar, Hsplit.
  eexists. split; [reflexivity |].
  rewrite fold_left_app. cbn [fold_left].
  rewrite anotar_todas_otro by exact Hdespues.
  now apply anotar_campo.
Qed.

(** C2 (as amended).  One turn of the loop never raises.  A line without
    [":"] leaves [campos] as it is.  A line with one is cut at its first
    [":"], and the trimmed right part is stored under the field of the
    first test of [reglas], in order, that the normalised left part
    passes: a keyword as substring for nine fields, one of the spellings
    [rut], [r.u.t], [r u t] for the tax id; when no test passes, [campos]
    stays as it is. *)
Theorem leer_linea_primera_regla (campos : gmap pystr pystr) (linea : pystr) :
  exists campos',
    leer_linea campos linea = Ok campos'
    /\ (contains (u ":") linea = false -> campos' = campos)
    /\ (contains (u ":") linea = true ->
        exists etiqueta valor,
          linea = etiqueta ++ u ":" ++ valor
          /\ contains (u ":") etiqueta = false
          /\ campos' =
             match find (fun r : pystr * prueba =>
                           cumple r.2 (normalizar_texto (Some etiqueta)))
                        reglas with
             | Some r => <[r.1 := strip valor]> campos
             | None => campos
             end).
Proof.
  exists (anotar campos linea). split; [apply leer_linea_anotar |].
  unfold anotar, campo_de_linea. split.
  - now intros ->.
  - intros Hc. rewrite Hc. change (u ":") with [58] in *.
    apply contains_char in Hc.
    destruct (split1_first 58 linea Hc) as (etiqueta & valor & -> & Hl & Hn).
    exists etiqueta, valor. split; [exact Hl |].
    split; [now apply contains_char_false |].
    unfold campo_de_etiqueta. now destruct (find _ reglas).
Qed.

End Conversacion.

(** ** Concrete runs on the excerpt *)

(** C1, witness: a first message that names both flows. *)
Lemma cotizacion_antes_que_postventa_witness :
  let body :=
    PDict [(u "handler", PStr (u "message"));
           (u "visitor", PDict [(u "id", PStr (u "v1"))]);
           (u "message", PDict [(u "text", PStr (u "Cotización y postventa"))])] in
  contains (u "postventa")
           (@normalizar_texto ucd (Some (u "Cotización y postventa"))) = true
  /\ @salesiq_webhook ucd POST body ∅ =
     ({[u "v1" := {| state := u "cotizacion_bloque"; data := ∅ |}]},
      Ok (JsonReply {| action := u "reply";
                       replies := [formulario];
                       input := None |})).
Proof.
  split; [reflexivity |].
  rewrite (@cotizacion_antes_que_postventa ucd ∅ _ (u "v1")
             (u "Cotización y postventa")).
  - reflexivity.
  - repeat split; reflexivity.
  - right. left. reflexivity.
  - reflexivity.
Defined.

(** C3, witness: a session left in a state the code does not know. *)
Lemma estado_conocido_tras_mensaje_witness :
  let body :=
    PDict [(u "handler", PStr (u "message"));
           (u "visitor", PDict [(u "email", PStr (u "ana@acme.cl"))]);
           (u "message", PStr (u "hola"))] in
  let sessions : gmap pystr Session :=
    {[u "ana@acme.cl" := {| state := u "postventa_telefono"; data := ∅ |}]} in
  exists sessions' s' r,
    @salesiq_webhook ucd POST body sessions = (sessions', Ok (JsonReply r))
    /\ sessions' !! u "ana@acme.cl" = Some s'
    /\ state s' = u "menu_principal"
    /\ replies r <> [].
Proof.
  intros body sessions.
  destruct (@estado_conocido_tras_mensaje ucd sessions body
              (u "ana@acme.cl") (u "hola"))
    as (sessions' & s' & r & Hrun & Hvid & _ & Hfall).
  - repeat split; reflexivity.
  - exists sessions', s', r. split; [exact Hrun |]. split; [exact Hvid |].
    apply Hfall. intros Hin%in_tuple_true. vm_compute in Hin. discriminate Hin.
Defined.

(** C5, witness: two triggers for a visitor in the middle of a flow. *)
Lemma trigger_reinicia_witness :
  let body := PDict [(u "handler", PStr (u "trigger"));
                     (u "visitor", PDict [(u "id", PInt 77)])] in
  let sessions : gmap pystr Session :=
    {[u "77" := {| state := u "postventa_rut";
                   data := {[u "nombre" := u "Ana"]} |}]} in
  exists sessions1,
    @salesiq_webhook ucd POST body sessions = (sessions1, Ok (JsonReply saludo))
    /\ state <$> sessions1 !! u "77" = Some (u "menu_principal")
    /\ @salesiq_webhook ucd POST body sessions1 = (sessions1, Ok (JsonReply saludo)).
Proof.
  intros body sessions.
  apply (@trigger_reinicia ucd sessions body body (u "77"));
    split; reflexivity.
Defined.

(** C6, witness: the last step of a post-sale case. *)
Lemma postventa_pasos_witness :
  let body :=
    PDict [(u "handler", PStr (u "message"));
           (u "visitor", PDict [(u "id", PStr (u "v1"))]);
           (u "message", PDict [(u "text", PStr (u "Equipo no enciende"))])] in
  let datos : gmap pystr pystr :=
    <[u "numero_factura" := u "F-1001"]>
      (<[u "rut" := u "12345678-9"]> {[u "nombre" := u "Ana"]}) in
  let sessions : gmap pystr Session :=
    {[u "v1" := {| state := u "postventa_detalle"; data := datos |}]} in
  @salesiq_webhook ucd POST body sessions =
    (<[u "v1" := {| state := u "menu_principal";
                    data := <[u "detalle" := u "Equipo no enciende"]> datos |}]>
       sessions,
     Ok (JsonReply
           {| action := u "reply";
              replies :=
                [u "Gracias. Hemos registrado su solicitud de postventa con el siguiente detalle:";
                 u "Resumen de su solicitud de postventa:" ++ nl ++
                 u "Nombre: Ana" ++ nl ++
                 u "RUT: 12345678-9" ++ nl ++
                 u "Número de factura: F-1001" ++ nl ++
                 u "Detalle: Equipo no enciende";
                 u "Un ejecutivo se pondrá en contacto con usted."];
              input := None |})).
Proof.
  intros body datos sessions.
  destruct (@postventa_pasos ucd sessions body (u "v1") (u "Equipo no enciende"))
    as (_ & _ & _ & H4).
  - repeat split; reflexivity.
  - rewrite H4 by reflexivity. reflexivity.
Defined.

(** C8, witness: two [Marca] lines. *)
Lemma ultima_linea_gana_witness :
  exists campos,
    @parse_campos ucd (u "Marca: ABB" ++ nl ++ u "Giro: Minería" ++ nl ++
                       u "MARCA : Siemens")
    = Ok campos
    /\ campos !! u "marca" = Some (u "Siemens").
Proof.
  apply (@ultima_linea_gana ucd _ [u "Marca: ABB"; u "Giro: Minería"] []
           (u "MARCA : Siemens")).
  - reflexivity.
  - reflexivity.
  - intros l [].
Defined.

(** C10, witness: a quote form without RUT line, for a visitor whose tax
    id the post-sale flow had stored. *)
Lemma cotizacion_sobrescribe_witness :
  let body :=
    PDict [(u "handler", PStr (u "message"));
           (u "visitor", PDict [(u "id", PStr (u "v1"))]);
           (u "message",
            PDict [(u "text", PStr (u "Nombre de la empresa: Acme" ++ nl ++
                                    u "Cantidad: 10"))])] in
  let sessions : gmap pystr Session :=
    {[u "v1" := {| state := u "cotizacion_bloque";
                   data := <[u "rut" := u "12345678-9"]> {[u "nombre" := u "Ana"]} |}]} in
  exists r s',
    @salesiq_webhook ucd POST body sessions = (<[u "v1" := s']> sessions, Ok (JsonReply r))
    /\ data s' !! u "rut" = Some []
    /\ data s' !! u "nombre" = Some (u "Ana").
Proof.
  intros body sessions.
  destruct (@cotizacion_sobrescribe ucd sessions body (u "v1")
              (u "Nombre de la empresa: Acme" ++ nl ++ u "Cantidad: 10"))
    as (Hcot & Hrut & _).
  - repeat split; reflexivity.
  - destruct Hcot as (campos & r & s' & _ & Hrun & _ & Hclaves & Hotras);
      [reflexivity |].
    exists r, s'. split; [exact Hrun |]. split.
    + apply (Hclaves (u "rut") Hrut).
      intros l Hl v. vm_compute in Hl.
      destruct Hl as [<- | [<- | []]]; vm_compute; discriminate.
    + rewrite Hotras; [reflexivity |].
      intros Hin%in_tuple_true. vm_compute in Hin. discriminate Hin.
Defined.

(** C4, witness: a [context] event for a visitor in the middle of a flow. *)
Lemma otro_evento_conserva_witness :
  let body := PDict [(u "handler", PStr (u "context"));
                     (u "visitor", PDict [(u "id", PStr (u "v1"))])] in
  let sessions : gmap pystr Session :=
    {[u "v1" := {| state := u "postventa_rut";
                   data := {[u "nombre" := u "Ana"]} |}]} in
  exists sessions',
    @salesiq_webhook ucd POST body sessions = (sessions', Ok (JsonReply acuse))
    /\ sessions' !! u "v1"
       = Some {| state := u "postventa_rut"; data := {[u "nombre" := u "Ana"]} |}.
Proof.
  intros body sessions.
  destruct (@otro_evento_conserva ucd sessions body (u "v1"))
    as (sessions' & Hrun & _ & _ & Hvid).
  - split; [| reflexivity].
    exists (PStr (u "context")). repeat split; reflexivity.
  - exists sessions'. split; [exact Hrun | exact Hvid].
Defined.

(** C4, counterexample: the first event of a visitor is a [context]
    event; the store, empty before, holds a session afterwards. *)
Lemma otro_evento_crea_sesion :
  let body := PDict [(u "handler", PStr (u "context"))] in
  @salesiq_webhook ucd POST body ∅ =
    ({[u "anon" := {| state := u "inicio"; data := ∅ |}]}, Ok (JsonReply acuse))
  /\ (@salesiq_webhook ucd POST body ∅).1 <> ∅.
Proof.
  split; [reflexivity |].
  intros H. apply (f_equal (fun m : gmap pystr Session => m !! u "anon")) in H.
  vm_compute in H. discriminate H.
Qed.

(** C2, counterexample: the label ["Correo de contacto"] contains the
    keyword ["correo"] of the e-mail field, and the value goes to the
    contact field, tested earlier; the label ["Su RUT"] contains the
    keyword ["rut"], and no field takes the value. *)
Lemma palabra_clave_sin_asignar :
  contains (u "correo")
           (@normalizar_texto ucd (Some (u "Correo de contacto"))) = true
  /\ @leer_linea ucd campos_en_blanco (u "Correo de contacto: ventas@acme.cl")
     = Ok (<[u "contacto" := u "ventas@acme.cl"]> campos_en_blanco)
  /\ (<[u "contacto" := u "ventas@acme.cl"]> campos_en_blanco) !! u "correo"
     = Some []
  /\ contains (u "rut") (@normalizar_texto ucd (Some (u "Su RUT"))) = true
  /\ @leer_linea ucd campos_en_blanco (u "Su RUT: 12345678-9")
     = Ok campos_en_blanco
  /\ ~ @asigna_por_palabra_clave ucd.
Proof.
  split; [reflexivity |]. split; [reflexivity |]. split; [reflexivity |].
  split; [reflexivity |]. split; [reflexivity |].
  intros H.
  destruct (H campos_en_blanco (u "Correo de contacto") (u " ventas@acme.cl")
              (u "correo") (u "correo") [u "correo"; u "email"])
    as (campos' & Hrun & Hcorreo).
  - reflexivity.
  - right; right; right; right; left; reflexivity.
  - left; reflexivity.
  - reflexivity.
  - vm_compute in Hrun. injection Hrun as <-.
    vm_compute in Hcorreo. discriminate Hcorreo.
Qed.

(** C2, witness: a line whose label passes two tests. *)
Lemma leer_linea_primera_regla_witness :
  @leer_linea ucd campos_en_blanco (u "Correo de contacto: ventas@acme.cl")
  = Ok (<[u "contacto" := u "ventas@acme.cl"]> campos_en_blanco).
Proof.
  destruct (@leer_linea_primera_regla ucd campos_en_blanco
              (u "Correo de contacto: ventas@acme.cl"))
    as (campos' & Hrun & _ & Hcorte).
  destruct (Hcorte eq_refl) as (etiqueta & valor & Hlinea & Hsin & ->).
  rewrite Hrun. f_equal.
  change (u ":") with [58] in *. apply contains_char_false in Hsin.
  destruct (primer_corte_unico 58 (u "Correo de contacto") (u " ventas@acme.cl")
              etiqueta valor Hlinea) as [<- <-].
  - intros Hin%contains_char. vm_compute in Hin. discriminate Hin.
  - exact Hsin.
  - reflexivity.
Defined.

(** The form of the specification's example: three fields filled, the
    other seven blank. *)
Example formulario_de_tres_lineas :
  @parse_campos ucd (u "Nombre de la empresa: Acme" ++ nl ++
                     u "RUT: 12345678-9" ++ nl ++
                     u "Cantidad: 10")
  = Ok (<[u "cantidad" := u "10"]>
          (<[u "rut" := u "12345678-9"]>
             (<[u "empresa" := u "Acme"]> campos_en_blanco))).
Proof. reflexivity. Qed.

(** * Further properties *)

(** ** Substrings *)

Lemma startswith_spec (s p : pystr) :
  startswith s p = true <-> exists r, s = p ++ r.
Proof.
  revert s. induction p as [|a p IH]; intros s; simpl.
  - split; [eauto | reflexivity].
  - destruct s as [|b s].
    + split; [discriminate | intros [r Hr]; discriminate].
    + rewrite andb_true_iff, N.eqb_eq, IH. split.
      * intros [-> [r ->]]. eauto.
      * intros [r [= -> ->]]. eauto.
Qed.

Lemma contains_spec (needle hay : pystr) :
  contains needle hay = true <-> exists a b, hay = a ++ needle ++ b.
Proof.
  induction hay as [|c hay IH].
  - simpl. rewrite orb_false_r, startswith_spec. split.
    + intros [r Hr]. exists [], r. exact Hr.
    + intros (a & b & Hab). destruct a; [eauto |]. discriminate.
  - cbn [contains]. rewrite orb_true_iff, startswith_spec, IH. split.
    + intros [[r Hr] | (a & b & ->)]; [exists [], r; exact Hr |].
      exists (c :: a), b. reflexivity.
    + intros ([|c' a] & b & Hab); [left; eauto |].
      injection Hab as -> ->. right. eauto.
Qed.

Lemma contains_trans (n m h : pystr) :
  contains n m = true -> contains m h = true -> contains n h = true.
Proof.
  rewrite !contains_spec. intros (a & b & ->) (a' & b' & ->).
  exists (a' ++ a), (b ++ b'). now rewrite <- !app_assoc.
Qed.

Lemma contains_falso (n m h : pystr) :
  contains n m = true -> contains n h = false -> contains m h = false.
Proof.
  intros Hnm Hnh. destruct (contains m h) eqn:Hmh; [| reflexivity].
  now rewrite (contains_trans n m h Hnm Hmh) in Hnh.
Qed.

Section MenuPrincipal.
Context `{U : PyLib}.

(** The first test of the menu is the test for ["cotiz"], and the second
    the test for ["postventa"] or ["post venta"]: the other disjuncts of
    the source add nothing. *)
Lemma pruebas_del_menu (t : pystr) :
  (contains (u "cotiz") t || contains (u "solicitud cotizacion") t
   || str_eqb t (u "cotizacion")) = contains (u "cotiz") t
  /\ (contains (u "postventa") t || contains (u "post venta") t
      || contains (u "servicio postventa") t)
     = (contains (u "postventa") t || contains (u "post venta") t).
Proof.
  split.
  - destruct (contains (u "cotiz") t) eqn:Hc; [reflexivity |].
    rewrite (contains_falso (u "cotiz") (u "solicitud cotizacion") t)
      by (reflexivity || exact Hc).
    simpl. apply str_eqb_false. intros ->. vm_compute in Hc. discriminate Hc.
  - destruct (contains (u "postventa") t) eqn:Hp; [reflexivity |].
    rewrite (contains_falso (u "postventa") (u "servicio postventa") t)
      by (reflexivity || exact Hp).
    now rewrite orb_false_r.
Qed.

Lemma manejar_menu_principal_casos (s : Session) (txt : pystr) :
  let t := normalizar_texto (Some txt) in
  manejar_menu_principal txt s =
    if contains (u "cotiz") t then
      ({| state := u "cotizacion_bloque"; data := data s |},
       Ok {| action := u "reply"; replies := [formulario]; input := None |})
    else if contains (u "postventa") t || contains (u "post venta") t then
      ({| state := u "postventa_nombre"; data := data s |}, Ok pide_nombre)
    else (s, Ok menu_de_nuevo).
Proof.
  intros t. unfold manejar_menu_principal. fold t.
  destruct (pruebas_del_menu t) as [-> ->].
  destruct (contains (u "cotiz") t); [reflexivity |].
  destruct (contains (u "postventa") t || contains (u "post venta") t);
    reflexivity.
Qed.

(** X1.  In state [menu_principal] or [inicio], a message whose normalised
    text has no ["cotiz"] opens the post-sale flow exactly when it contains
    ["postventa"] or ["post venta"]; otherwise the menu is offered again
    and the session stays as it is (a session in [inicio] stays in
    [inicio]). *)
Theorem menu_sin_cotizacion (sessions : gmap pystr Session)
    (body : pyval) (vid txt : pystr) :
  evento_mensaje body vid txt ->
  In (state (sesion_de sessions vid)) [u "menu_principal"; u "inicio"] ->
  contains (u "cotiz") (normalizar_texto (Some txt)) = false ->
  salesiq_webhook POST body sessions =
    if contains (u "postventa") (normalizar_texto (Some txt))
       || contains (u "post venta") (normalizar_texto (Some txt))
    then (<[vid := {| state := u "postventa_nombre";
                      data := data (sesion_de sessions vid) |}]> sessions,
          Ok (JsonReply pide_nombre))
    else (<[vid := sesion_de sessions vid]> sessions,
          Ok (JsonReply menu_de_nuevo)).
Proof.
  intros Hev Hs Hc. rewrite (webhook_mensaje _ _ _ _ Hev).
  rewrite despachar_menu by exact Hs.
  rewrite manejar_menu_principal_casos. cbv zeta. rewrite Hc.
  destruct (contains (u "postventa") _ || contains (u "post venta") _);
    reflexivity.
Qed.

End MenuPrincipal.

(** X1, witness: a greeting that names no flow, from a new visitor. *)
Lemma menu_sin_cotizacion_witness :
  let body :=
    PDict [(u "handler", PStr (u "message"));
           (u "visitor", PDict [(u "id", PStr (u "v1"))]);
           (u "message", PDict [(u "text", PStr (u "Hola, buenas tardes"))])] in
  @salesiq_webhook ucd POST body ∅ =
    ({[u "v1" := {| state := u "inicio"; data := ∅ |}]},
     Ok (JsonReply menu_de_nuevo)).
Proof.
  intros body.
  rewrite (@menu_sin_cotizacion ucd ∅ body (u "v1") (u "Hola, buenas tardes")).
  - reflexivity.
  - repeat split; reflexivity.
  - right. left. reflexivity.
  - reflexivity.
Defined.

(** ** The dispatch and the transition table *)

Section TablaDeTransiciones.
Context `{U : PyLib}.

Lemma resumen_cotizacion_datos (campos : gmap pystr pystr) :
  (forall k, In k claves_cotizacion -> is_Some (campos !! k)) ->
  resumen_cotizacion campos = Ok (resumen_de_datos campos).
Proof.
  intros Hk. unfold resumen_cotizacion, resumen_de_datos, getitem.
  unfold pystr in *.
  repeat match goal with
         | |- context [match campos !! ?k with _ => _ end] =>
             let v := fresh "v" in let Hv := fresh "Hv" in
             destruct (Hk k) as [v Hv]; [en_lista |]; rewrite Hv
         end.
  reflexivity.
Qed.

Lemma parse_campos_claves (txt : pystr) (campos : gmap pystr pystr) :
  parse_campos txt = Ok campos ->
  forall k, In k claves_cotizacion <-> is_Some (campos !! k).
Proof.
  rewrite parse_campos_anotar. intros [= <-] k. split.
  - intros Hk. apply anotar_todas_presente.
    rewrite campos_en_blanco_clave by assumption. eauto.
  - intros [v Hv].
    destruct (in_tuple k claves_cotizacion) eqn:Hin;
      [now apply in_tuple_true |].
    apply in_tuple_false in Hin.
    rewrite anotar_todas_ajeno, campos_en_blanco_ajeno in Hv by exact Hin.
    discriminate Hv.
Qed.

Lemma manejar_flujo_cotizacion_bloque_datos (s : Session) (txt : pystr) :
  exists campos,
    parse_campos txt = Ok campos
    /\ manejar_flujo_cotizacion_bloque txt s =
       ({| state := u "menu_principal"; data := campos ∪ data s |},
        Ok (textos [u "Gracias. Hemos registrado su solicitud con el siguiente detalle:";
                    resumen_de_datos campos;
                    u "Un ejecutivo de Selec se pondrá en contacto con usted."])).
Proof.
  destruct (manejar_flujo_cotizacion_bloque_ok s txt)
    as (campos & resumen & Hparse & Hres & ->).
  exists campos. split; [exact Hparse |].
  rewrite resumen_cotizacion_datos in Hres
    by (intros k Hk; now apply (parse_campos_claves txt campos Hparse)).
  injection Hres as <-. reflexivity.
Qed.

(** Every message takes one step of the table. *)
Lemma despachar_mensaje_paso (s : Session) (txt : pystr) :
  exists s' r, despachar_mensaje txt s = (s', Ok r) /\ paso s txt s' r.
Proof.
  destruct (in_tuple (state s) [u "menu_principal"; u "inicio"]) eqn:Hmenu.
  { apply in_tuple_true in Hmenu. rewrite despachar_menu by exact Hmenu.
    rewrite manejar_menu_principal_casos. cbv zeta.
    destruct (contains (u "cotiz") _) eqn:Hc;
      [eexists; eexists; split; [reflexivity | now constructor] |].
    destruct (contains (u "postventa") _ || contains (u "post venta") _) eqn:Hp;
      eexists; eexists; (split; [reflexivity |]).
    - now apply paso_postventa.
    - now apply paso_reintento. }
  apply in_tuple_false in Hmenu.
  destruct (str_eqb (state s) (u "cotizacion_bloque")) eqn:Hcot.
  { apply str_eqb_true in Hcot. rewrite despachar_cotizacion by exact Hcot.
    destruct (manejar_flujo_cotizacion_bloque_datos s txt) as (campos & Hp & ->).
    eexists; eexists; split; [reflexivity | now constructor]. }
  apply str_eqb_false in Hcot.
  destruct (in_tuple (state s)
              [u "postventa_nombre"; u "postventa_rut";
               u "postventa_numero_factura"; u "postventa_detalle"]) eqn:Hpv.
  { apply in_tuple_true in Hpv. rewrite despachar_postventa by exact Hpv.
    destruct (manejar_flujo_postventa_pasos s txt) as (H1 & H2 & H3 & H4).
    destruct Hpv as [Hs | [Hs | [Hs | [Hs | []]]]]; symmetry in Hs.
    - rewrite (H1 Hs). eexists; eexists; split; [reflexivity | now constructor].
    - rewrite (H2 Hs). eexists; eexists; split; [reflexivity | now constructor].
    - rewrite (H3 Hs). eexists; eexists; split; [reflexivity | now constructor].
    - rewrite (H4 Hs). eexists; eexists; split; [reflexivity | now constructor]. }
  pose proof Hpv as Hpv'. apply in_tuple_false in Hpv'.
  unfold despachar_mensaje, get_state. unfold mbind at 1, M_bind.
  replace (in_tuple (state s) [u "menu_principal"; u "inicio"]) with false
    by (symmetry; now apply in_tuple_false).
  replace (str_eqb (state s) (u "cotizacion_bloque")) with false
    by (symmetry; now apply str_eqb_false).
  destruct (startswith (state s) (u "postventa_")) eqn:Hpost.
  - unfold manejar_flujo_postventa, get_state. unfold mbind at 1, M_bind.
    cbn [in_tuple existsb] in Hpv. rewrite orb_false_r in Hpv.
    apply orb_false_iff in Hpv as [Hn Hpv].
    apply orb_false_iff in Hpv as [Hr Hpv].
    apply orb_false_iff in Hpv as [Hf Hd].
    rewrite Hn, Hr, Hf, Hd.
    eexists; eexists; split; [reflexivity | now apply paso_recuperar].
  - eexists; eexists; split; [reflexivity |].
    apply paso_desconocido; [| exact Hpost].
    intros [H | [H | [H | []]]]; [apply Hmenu; now left
                                 | apply Hmenu; right; now left
                                 | now apply Hcot].
Qed.

End TablaDeTransiciones.

Section TablaCompleta.
Context `{U : PyLib}.

Lemma despachar_recuperar (s : Session) (txt : pystr) :
  startswith (state s) (u "postventa_") = true ->
  ~ In (state s) [u "postventa_nombre"; u "postventa_rut";
                  u "postventa_numero_factura"; u "postventa_detalle"] ->
  despachar_mensaje txt s =
    ({| state := u "menu_principal"; data := data s |},
     Ok (textos [u "Ha ocurrido un problema con la conversación.";
                 u "Volvamos al inicio. ¿Desea 'Solicitud Cotización' o 'Servicio PostVenta'?"])).
Proof.
  intros Hpost Hpv.
  unfold despachar_mensaje, get_state. unfold mbind at 1, M_bind.
  replace (in_tuple (state s) [u "menu_principal"; u "inicio"]) with false.
  2:{ symmetry. apply in_tuple_false.
      intros [H | [H | []]]; rewrite <- H in Hpost; vm_compute in Hpost;
        discriminate Hpost. }
  replace (str_eqb (state s) (u "cotizacion_bloque")) with false.
  2:{ symmetry. apply str_eqb_false. intros H. rewrite H in Hpost.
      vm_compute in Hpost. discriminate Hpost. }
  rewrite Hpost.
  unfold manejar_flujo_postventa, get_state. unfold mbind at 1, M_bind.
  apply in_tuple_false in Hpv.
  cbn [in_tuple existsb] in Hpv. rewrite orb_false_r in Hpv.
  apply orb_false_iff in Hpv as [Hn Hpv].
  apply orb_false_iff in Hpv as [Hr Hpv].
  apply orb_false_iff in Hpv as [Hf Hd].
  rewrite Hn, Hr, Hf, Hd. reflexivity.
Qed.

Lemma despachar_desconocido (s : Session) (txt : pystr) :
  ~ In (state s) [u "menu_principal"; u "inicio"; u "cotizacion_bloque"] ->
  startswith (state s) (u "postventa_") = false ->
  despachar_mensaje txt s =
    ({| state := u "menu_principal"; data := data s |},
     Ok (textos [u "No he comprendido su mensaje.";
                 u "Por favor, indique si desea 'Solicitud Cotización' o 'Servicio PostVenta'."])).
Proof.
  intros Hs Hpost.
  unfold despachar_mensaje, get_state. unfold mbind at 1, M_bind.
  replace (in_tuple (state s) [u "menu_principal"; u "inicio"]) with false.
  2:{ symmetry. apply in_tuple_false. intros [H | [H | []]]; apply Hs;
        [now left | right; now left]. }
  replace (str_eqb (state s) (u "cotizacion_bloque")) with false.
  2:{ symmetry. apply str_eqb_false. intros H. apply Hs. right; right; now left. }
  rewrite Hpost. reflexivity.
Qed.

Lemma paso_despachar (s s' : Session) (txt : pystr) (r : Reply) :
  paso s txt s' r -> despachar_mensaje txt s = (s', Ok r).
Proof.
  intros Hp. destruct Hp.
  - rewrite despachar_menu, manejar_menu_principal_casos by assumption.
    cbv zeta. now rewrite H0.
  - rewrite despachar_menu, manejar_menu_principal_casos by assumption.
    cbv zeta. now rewrite H0, H1.
  - rewrite despachar_menu, manejar_menu_principal_casos by assumption.
    cbv zeta. rewrite H0, H1. now destruct s.
  - rewrite despachar_cotizacion by assumption.
    destruct (manejar_flujo_cotizacion_bloque_datos s txt) as (c & Hc & ->).
    rewrite H0 in Hc. now injection Hc as <-.
  - rewrite despachar_postventa by (rewrite H; en_lista).
    now destruct (manejar_flujo_postventa_pasos s txt) as (-> & _).
  - rewrite despachar_postventa by (rewrite H; en_lista).
    now destruct (manejar_flujo_postventa_pasos s txt) as (_ & -> & _).
  - rewrite despachar_postventa by (rewrite H; en_lista).
    now destruct (manejar_flujo_postventa_pasos s txt) as (_ & _ & -> & _).
  - rewrite despachar_postventa by (rewrite H; en_lista).
    now destruct (manejar_flujo_postventa_pasos s txt) as (_ & _ & _ & ->).
  - now apply despachar_recuperar.
  - now apply despachar_desconocido.
Qed.

(** X2.  The dispatch of a message is the transition table [paso]: it
    always answers, and it leaves the session as [s'] with the reply [r]
    exactly when the table has the step from [s] on [txt] to [s'] and
    [r]. *)
Theorem despachar_mensaje_tabla (s : Session) (txt : pystr) :
  (exists s' r, despachar_mensaje txt s = (s', Ok r))
  /\ (forall s' r, despachar_mensaje txt s = (s', Ok r) <-> paso s txt s' r).
Proof.
  split.
  - destruct (despachar_mensaje_paso s txt) as (s' & r & Hrun & _). eauto.
  - intros s' r. split.
    + intros Hrun. destruct (despachar_mensaje_paso s txt) as (s1 & r1 & H1 & Hp).
      rewrite Hrun in H1. injection H1 as -> ->. exact Hp.
    + apply paso_despachar.
Qed.

End TablaCompleta.

(** ** The webhook on every body *)

Section TodaCarga.
Context `{U : PyLib}.

Lemma dict_o_falso_dec (v : pyval) : dict_o_falso v \/ ~ dict_o_falso v.
Proof.
  unfold dict_o_falso.
  destruct v as [| b | z | f | s | l | d]; [| | | | | | left; right; eauto];
    (destruct (truthy _) eqn:Ht; [right | left; left; reflexivity];
     intros [H | [d H]]; [congruence | discriminate H]).
Qed.

Lemma no_dict_o_falso (v : pyval) :
  ~ dict_o_falso v -> py_or v (PDict []) = v /\ forall k, py_get v k = Raise AttributeError.
Proof.
  unfold dict_o_falso, py_or. intros Hv.
  destruct (truthy v) eqn:Ht; [| exfalso; auto].
  split; [reflexivity |]. intros k.
  destruct v; try reflexivity. exfalso. eauto.
Qed.

Lemma get_visitor_id_no_dict (payload : pyval) :
  (forall d, payload <> PDict d) ->
  get_visitor_id payload = Raise AttributeError.
Proof.
  intros Hp. destruct payload; try reflexivity. exfalso. now eapply Hp.
Qed.

Lemma get_visitor_id_dict (payload : pyval) (vid : pystr) :
  get_visitor_id payload = Ok vid ->
  exists d, payload = PDict d /\ dict_o_falso (valor_de d (u "visitor")).
Proof.
  intros Hv.
  destruct payload;
    try (rewrite get_visitor_id_no_dict in Hv by discriminate; discriminate Hv).
  eexists. split; [reflexivity |].
  destruct (dict_o_falso_dec (valor_de d (u "visitor"))) as [H | H]; [exact H |].
  exfalso. destruct (no_dict_o_falso _ H) as [Hor Hget].
  unfold get_visitor_id in Hv.
  cbn [py_get fmap outcome_fmap mbind outcome_bind] in Hv.
  fold (valor_de d (u "visitor")) in Hv. rewrite Hor, (Hget (u "id")) in Hv.
  discriminate Hv.
Qed.

Lemma get_visitor_id_error (payload : pyval) (e : exn) :
  get_visitor_id payload = Raise e ->
  e = AttributeError
  /\ ~ (exists d, payload = PDict d /\ dict_o_falso (valor_de d (u "visitor"))).
Proof.
  intros He.
  destruct payload;
    try (rewrite get_visitor_id_no_dict in He by discriminate;
         injection He as <-; split;
         [reflexivity | intros (d' & Hd & _); discriminate Hd]).
  destruct (dict_o_falso_dec (valor_de d (u "visitor"))) as [H | H].
  - destruct (get_visitor_id_ok d H) as [vid Hvid]. congruence.
  - destruct (no_dict_o_falso _ H) as [Hor Hget].
    unfold get_visitor_id in He.
    cbn [py_get fmap outcome_fmap mbind outcome_bind] in He.
    fold (valor_de d (u "visitor")) in He. rewrite Hor, (Hget (u "id")) in He.
    injection He as <-. split; [reflexivity |].
    intros (d' & [= <-] & Hd). auto.
Qed.

Lemma extraer_mensaje_error (d : list (pystr * pyval)) (e : exn) :
  extraer_mensaje (PDict d) = Raise e ->
  e = AttributeError
  /\ truthy (valor_de d (u "message")) = false
  /\ ~ dict_o_falso (valor_de d (u "request")).
Proof.
  intros He.
  destruct (truthy (valor_de d (u "message"))) eqn:Hm.
  { destruct (extraer_mensaje_ok d (or_introl Hm)) as [txt Htxt]. congruence. }
  destruct (dict_o_falso_dec (valor_de d (u "request"))) as [H | H].
  { destruct (extraer_mensaje_ok d (or_intror H)) as [txt Htxt]. congruence. }
  destruct (no_dict_o_falso _ H) as [Hor Hget].
  unfold extraer_mensaje in He.
  cbn [py_get fmap outcome_fmap mbind outcome_bind] in He.
  fold (valor_de d (u "message")) (valor_de d (u "request")) in He.
  rewrite Hm in He. cbn [negb] in He.
  cbn [fmap outcome_fmap mbind outcome_bind] in He.
  rewrite Hor, Hget in He. injection He as <-. auto.
Qed.

Lemma insert_sesion_de_id (sessions : gmap pystr Session) (vid : pystr) :
  match sessions !! vid with
  | Some _ => sessions
  | None => <[vid := {| state := u "inicio"; data := ∅ |}]> sessions
  end = <[vid := sesion_de sessions vid]> sessions.
Proof.
  unfold sesion_de. destruct (sessions !! vid) eqn:Hv; [| reflexivity].
  symmetry. now apply insert_id.
Qed.

Lemma webhook_sin_visitante (sessions : gmap pystr Session) (body : pyval)
    (e : exn) :
  get_visitor_id (py_or body (PDict [])) = Raise e ->
  salesiq_webhook POST body sessions = (sessions, Raise e).
Proof.
  intros He. unfold salesiq_webhook.
  destruct (get_visitor_id_error _ _ He) as [-> _].
  destruct (py_or body (PDict [])) eqn:Hp; try reflexivity.
  unfold mbind, M_bind, lift. cbn [py_get]. now rewrite He.
Qed.

Lemma webhook_mensaje_error (sessions : gmap pystr Session) (body : pyval)
    (vid : pystr) (e : exn) :
  py_get (py_or body (PDict [])) (u "handler") = Ok (PStr (u "message")) ->
  get_visitor_id (py_or body (PDict [])) = Ok vid ->
  extraer_mensaje (py_or body (PDict [])) = Raise e ->
  salesiq_webhook POST body sessions =
    (<[vid := sesion_de sessions vid]> sessions, Raise e).
Proof.
  intros Hh Hv He. unfold salesiq_webhook.
  destruct (py_get_dict _ _ _ Hh) as [d Hd]. rewrite Hd in *.
  rewrite Hv, He. simpl in Hh. injection Hh as Hh.
  unfold mbind, M_bind, lift, py_get. rewrite Hh.
  change (py_eq_str (PStr (u "message")) (u "trigger")) with false.
  change (py_eq_str (PStr (u "message")) (u "message")) with true.
  cbv iota. rewrite <- insert_sesion_de_id. unfold setdefault.
  destruct (sessions !! vid); reflexivity.
Qed.

(** What a POST does, case by case: it raises before the store is
    touched; or it puts the visitor's session in the store and then
    acknowledges, raises, greets, or takes a step of the table. *)
Lemma webhook_casos (sessions : gmap pystr Session) (body : pyval) :
  (get_visitor_id (py_or body (PDict [])) = Raise AttributeError
   /\ salesiq_webhook POST body sessions = (sessions, Raise AttributeError))
  \/ exists vid s' o,
       get_visitor_id (py_or body (PDict [])) = Ok vid
       /\ salesiq_webhook POST body sessions = (<[vid := s']> sessions, o)
       /\ ((s' = sesion_de sessions vid
            /\ (o = Ok (JsonReply acuse) \/ o = Raise AttributeError))
           \/ (s' = {| state := u "menu_principal";
                       data := data (sesion_de sessions vid) |}
               /\ o = Ok (JsonReply saludo))
           \/ (exists txt r,
                 paso (sesion_de sessions vid) txt s' r
                 /\ o = Ok (JsonReply r))).
Proof.
  destruct (get_visitor_id (py_or body (PDict []))) as [vid | e] eqn:Hv.
  2:{ left. destruct (get_visitor_id_error _ _ Hv) as [-> _].
      split; [reflexivity | now apply webhook_sin_visitante]. }
  right. exists vid.
  destruct (get_visitor_id_dict _ _ Hv) as (d & Hd & _).
  set (h := valor_de d (u "handler")).
  assert (Hh : py_get (py_or body (PDict [])) (u "handler") = Ok h)
    by now rewrite Hd.
  destruct (py_eq_str h (u "trigger")) eqn:Ht.
  { apply py_eq_str_true in Ht. rewrite Ht in Hh.
    eexists; eexists. split; [reflexivity |].
    split; [apply webhook_trigger; now split |]. right. left. now split. }
  destruct (py_eq_str h (u "message")) eqn:Hm.
  { apply py_eq_str_true in Hm. rewrite Hm in Hh.
    destruct (extraer_mensaje (py_or body (PDict []))) as [txt | e] eqn:He.
    - destruct (despachar_mensaje_paso (sesion_de sessions vid) txt)
        as (s' & r & Hrun & Hp).
      exists s', (Ok (JsonReply r)). split; [reflexivity |]. split.
      + rewrite (webhook_mensaje sessions body vid txt) by now repeat split.
        now rewrite Hrun.
      + right. right. eauto.
    - rewrite Hd in He. destruct (extraer_mensaje_error _ _ He) as [-> _].
      rewrite <- Hd in He.
      eexists; eexists. split; [reflexivity |].
      split; [exact (webhook_mensaje_error sessions body vid _ Hh Hv He) |].
      left. auto. }
  eexists; eexists. split; [reflexivity |]. split.
  - rewrite (webhook_otro sessions body vid), insert_sesion_de_id;
      [reflexivity |]. split; [exists h; auto | exact Hv].
  - left. auto.
Qed.

End TodaCarga.

Section Peticiones.
Context `{U : PyLib}.

Lemma get_visitor_id_raise (d : list (pystr * pyval)) :
  ~ dict_o_falso (valor_de d (u "visitor")) ->
  get_visitor_id (PDict d) = Raise AttributeError.
Proof.
  intros H. destruct (get_visitor_id (PDict d)) as [vid | e] eqn:Hv.
  - destruct (get_visitor_id_dict _ _ Hv) as (d' & [= <-] & Hd). contradiction.
  - now destruct (get_visitor_id_error _ _ Hv) as [-> _].
Qed.

Lemma extraer_mensaje_raise (d : list (pystr * pyval)) :
  truthy (valor_de d (u "message")) = false ->
  ~ dict_o_falso (valor_de d (u "request")) ->
  extraer_mensaje (PDict d) = Raise AttributeError.
Proof.
  intros Hm H. destruct (no_dict_o_falso _ H) as [Hor Hget].
  unfold extraer_mensaje.
  cbn [py_get fmap outcome_fmap mbind outcome_bind].
  fold (valor_de d (u "message")) (valor_de d (u "request")).
  rewrite Hm. cbn [negb]. cbn [fmap outcome_fmap mbind outcome_bind].
  now rewrite Hor, Hget.
Qed.

Lemma paso_respuesta (s s' : Session) (txt : pystr) (r : Reply) :
  paso s txt s' r ->
  action r = u "reply"
  /\ (1 <= length (replies r) <= 3)%nat
  /\ (input r = None \/ input r = Some menu_card).
Proof.
  intros Hp. destruct Hp; cbn [action replies input textos pide_nombre
                               menu_de_nuevo length];
    (split; [reflexivity |]; split; [lia |]);
    first [left; reflexivity | right; reflexivity].
Qed.

(** X3.  A request leaves the sessions of the other visitors as they
    are: whatever the method and the body, also when the request raises,
    the entry of every visitor other than the one the body names is the
    same before and after. *)
Theorem otros_visitantes_intactos (method : http_method) (body : pyval)
    (sessions : gmap pystr Session) (v : pystr) :
  get_visitor_id (py_or body (PDict [])) <> Ok v ->
  (salesiq_webhook method body sessions).1 !! v = sessions !! v.
Proof.
  intros Hv. destruct method; [reflexivity |].
  destruct (webhook_casos sessions body)
    as [[_ ->] | (vid & s' & o & Hvid & -> & _)]; [reflexivity |].
  cbn [fst]. apply lookup_insert_ne. congruence.
Qed.


(** X5.  A POST answers exactly the bodies of the shape [carga_valida],
    with a reply of at least one text; on every other body it raises
    [AttributeError], and nothing else is ever raised. *)
Theorem post_responde_o_lanza (sessions : gmap pystr Session) (body : pyval) :
  (carga_valida body
   /\ exists sessions' r,
        salesiq_webhook POST body sessions = (sessions', Ok (JsonReply r))
        /\ replies r <> [])
  \/ (~ carga_valida body
      /\ exists sessions',
           salesiq_webhook POST body sessions = (sessions', Raise AttributeError)).
Proof.
  destruct (py_or body (PDict [])) as [| | | | | | d] eqn:Hd.
  1-6: right; split;
       [intros (d' & Hd' & _); congruence
       | exists sessions; apply webhook_sin_visitante; rewrite Hd; reflexivity].
  destruct (dict_o_falso_dec (valor_de d (u "visitor"))) as [Hv | Hv].
  2:{ right. split.
      - intros (d' & Hd' & Hv' & _). rewrite Hd in Hd'. injection Hd' as <-. auto.
      - exists sessions. apply webhook_sin_visitante. rewrite Hd.
        now apply get_visitor_id_raise. }
  destruct (get_visitor_id_ok d Hv) as [vid Hvid].
  set (h := valor_de d (u "handler")).
  assert (Hh : py_get (py_or body (PDict [])) (u "handler") = Ok h)
    by now rewrite Hd.
  destruct (py_eq_str h (u "message")) eqn:Hm.
  - apply py_eq_str_true in Hm.
    destruct (truthy (valor_de d (u "message"))) eqn:Hmsg;
      [| destruct (dict_o_falso_dec (valor_de d (u "request"))) as [Hr | Hr]].
    3:{ right. split.
        - intros (d' & Hd' & _ & Hc). rewrite Hd in Hd'. injection Hd' as <-.
          destruct (Hc Hm) as [Ht | Hr']; [congruence | auto].
        - eexists. apply (webhook_mensaje_error sessions body vid).
          + now rewrite Hh, Hm.
          + now rewrite Hd.
          + rewrite Hd. now apply extraer_mensaje_raise. }
    all: left; split; [exists d; split; [exact Hd |]; split; [exact Hv | auto] |].
    all: match goal with
         | |- _ => destruct (extraer_mensaje_ok d) as [txt Htxt]; [auto |]
         end.
    all: rewrite (webhook_mensaje sessions body vid txt)
           by (split; [now rewrite Hh, Hm | split; now rewrite Hd]).
    all: destruct (despachar_mensaje_estado (sesion_de sessions vid) txt)
           as (s' & r & -> & _ & Hr' & _).
    all: eexists; eexists; split; [reflexivity | exact Hr'].
  - left. split.
    { exists d. split; [exact Hd |]. split; [exact Hv |].
      fold h. intros Heq. rewrite Heq in Hm. vm_compute in Hm. discriminate Hm. }
    destruct (py_eq_str h (u "trigger")) eqn:Ht.
    + apply py_eq_str_true in Ht.
      rewrite (webhook_trigger sessions body vid)
        by (split; [now rewrite Hh, Ht | now rewrite Hd]).
      eexists; eexists; split; [reflexivity | discriminate].
    + rewrite (webhook_otro sessions body vid)
        by (split; [exists h; auto | now rewrite Hd]).
      eexists; eexists; split; [reflexivity | discriminate].
Qed.

(** X6.  Every answer of a POST is a reply of the same form: the action
    is ["reply"], there are one to three texts, and the input card, when
    there is one, is the select menu of the two options. *)
Theorem respuesta_bien_formada (sessions sessions' : gmap pystr Session)
    (body : pyval) (resp : Response) :
  salesiq_webhook POST body sessions = (sessions', Ok resp) ->
  exists r,
    resp = JsonReply r
    /\ action r = u "reply"
    /\ (1 <= length (replies r) <= 3)%nat
    /\ (input r = None \/ input r = Some menu_card).
Proof.
  intros Hrun.
  destruct (webhook_casos sessions body)
    as [[_ H] | (vid & s' & o & _ & H & Hcasos)];
    rewrite H in Hrun; [discriminate Hrun |].
  injection Hrun as _ ->.
  destruct Hcasos as [[_ [[= ->] | H']] | [[_ [= ->]] | (txt & r & Hp & [= ->])]].
  - exists acuse. repeat split; (cbn; lia) || (left; reflexivity).
  - discriminate H'.
  - exists saludo. repeat split; (cbn; lia) || (right; reflexivity).
  - exists r. split; [reflexivity |]. eapply paso_respuesta, Hp.
Qed.

End Peticiones.

(** X3, witness: a message of one visitor while another is in a flow. *)
Lemma otros_visitantes_intactos_witness :
  let body :=
    PDict [(u "handler", PStr (u "message"));
           (u "visitor", PDict [(u "id", PStr (u "v1"))]);
           (u "message", PStr (u "Cotización"))] in
  let sessions : gmap pystr Session :=
    {[u "v2" := {| state := u "postventa_rut";
                   data := {[u "nombre" := u "Ana"]} |}]} in
  (@salesiq_webhook ucd POST body sessions).1 !! u "v2"
  = Some {| state := u "postventa_rut"; data := {[u "nombre" := u "Ana"]} |}.
Proof.
  intros body sessions.
  rewrite (@otros_visitantes_intactos ucd POST body sessions (u "v2")).
  - reflexivity.
  - vm_compute. discriminate.
Defined.

(** X6, witness: the answer to a first, unrecognised message. *)
Lemma respuesta_bien_formada_witness :
  exists r,
    JsonReply menu_de_nuevo = JsonReply r
    /\ action r = u "reply"
    /\ (1 <= length (replies r) <= 3)%nat
    /\ (input r = None \/ input r = Some menu_card).
Proof.
  apply (@respuesta_bien_formada ucd ∅
           {[u "anon" := {| state := u "inicio"; data := ∅ |}]}
           (PDict [(u "handler", PStr (u "message"))])).
  reflexivity.
Defined.

(** ** Runs of the server *)

Section Corridas.
Context `{U : PyLib}.

Lemma sesion_de_sana (sessions : gmap pystr Session) (vid : pystr) :
  (forall v s, sessions !! v = Some s -> sesion_sana s) ->
  sesion_sana (sesion_de sessions vid).
Proof.
  intros Hall. unfold sesion_de.
  destruct (sessions !! vid) as [s|] eqn:Hs; [now apply (Hall vid) |].
  split; [en_lista |]. cbn. intros k [x Hx]. now rewrite lookup_empty in Hx.
Qed.

Lemma paso_sana (s s' : Session) (txt : pystr) (r : Reply) :
  paso s txt s' r -> sesion_sana s -> sesion_sana s'.
Proof.
  intros Hp [Hs Hd].
  assert (Hins : forall (k0 : pystr) (v : pystr) (e : pystr),
             In k0 (claves_cotizacion ++ claves_postventa) ->
             sesion_sana {| state := e; data := data s |} ->
             sesion_sana {| state := e; data := <[k0 := v]> (data s) |}).
  { intros k0 v e Hk0 [He _]. split; [exact He |]. cbn [data].
    intros k Hk. rewrite lookup_insert in Hk. case_decide; [now subst | auto]. }
  destruct Hp; try (split; [en_lista | exact Hd]).
  - now split.
  - split; [en_lista |]. cbn [data]. intros k Hk.
    apply lookup_union_is_Some in Hk as [Hk | Hk]; [| auto].
    apply in_or_app. left.
    now apply (parse_campos_claves txt campos H0).
  - apply Hins; [en_lista |]. split; [en_lista | exact Hd].
  - apply Hins; [en_lista |]. split; [en_lista | exact Hd].
  - apply Hins; [en_lista |]. split; [en_lista | exact Hd].
  - apply Hins; [en_lista |]. split; [en_lista | exact Hd].
Qed.

Lemma webhook_sanas (method : http_method) (body : pyval)
    (sessions : gmap pystr Session) :
  (forall v s, sessions !! v = Some s -> sesion_sana s) ->
  forall v s, (salesiq_webhook method body sessions).1 !! v = Some s ->
              sesion_sana s.
Proof.
  intros Hall. destruct method; [exact Hall |].
  destruct (webhook_casos sessions body)
    as [[_ ->] | (vid & s' & o & _ & -> & Hcasos)]; [exact Hall |].
  cbn [fst]. intros v s Hv. rewrite lookup_insert in Hv. case_decide.
  2:{ now apply (Hall v). }
  injection Hv as <-. pose proof (sesion_de_sana sessions vid Hall) as H0.
  destruct Hcasos as [[-> _] | [[-> _] | (txt & r & Hp & _)]].
  - exact H0.
  - destruct H0 as [_ Hd]. split; [en_lista | exact Hd].
  - eapply paso_sana; eauto.
Qed.

Lemma atender_sanas (peticiones : list (http_method * pyval))
    (sessions : gmap pystr Session) :
  (forall v s, sessions !! v = Some s -> sesion_sana s) ->
  forall v s, (atender peticiones sessions).1 !! v = Some s -> sesion_sana s.
Proof.
  revert sessions.
  induction peticiones as [|[method body] ps IH]; intros sessions Hall;
    [exact Hall |].
  cbn [atender].
  pose proof (webhook_sanas method body sessions Hall) as H1.
  destruct (salesiq_webhook method body sessions) as [sessions1 r].
  specialize (IH sessions1 H1).
  destruct (atender ps sessions1) as [sessions2 rs]. exact IH.
Qed.

(** X7.  Started with no session, the server keeps every session in one
    of the seven known states, whatever requests it is sent: of any
    method, with any body, the ones that raise included. *)
Theorem estados_conocidos_siempre (peticiones : list (http_method * pyval))
    (v : pystr) (s : Session) :
  (atender peticiones ∅).1 !! v = Some s ->
  In (state s) estados_conocidos.
Proof.
  intros Hv. eapply (atender_sanas peticiones ∅); [| exact Hv].
  intros v' s' H. now rewrite lookup_empty in H.
Qed.

(** X8.  Started with no session, the server never stores a key other
    than the ten of the quote form and the four of the post-sale flow in
    the data of a session. *)
Theorem claves_de_los_datos (peticiones : list (http_method * pyval))
    (v k : pystr) (s : Session) :
  (atender peticiones ∅).1 !! v = Some s ->
  is_Some (data s !! k) ->
  In k (claves_cotizacion ++ claves_postventa).
Proof.
  intros Hv. eapply (atender_sanas peticiones ∅); [| exact Hv].
  intros v' s' H. now rewrite lookup_empty in H.
Qed.

End Corridas.

(** X7, witness: the session of the visitor after the sample run. *)
Lemma estados_conocidos_siempre_witness :
  exists s,
    (@atender ucd corrida_de_muestra ∅).1 !! u "v1" = Some s
    /\ In (state s) estados_conocidos.
Proof.
  destruct ((@atender ucd corrida_de_muestra ∅).1 !! u "v1") as [s|] eqn:H.
  - exists s. split; [reflexivity |].
    exact (@estados_conocidos_siempre ucd corrida_de_muestra (u "v1") s H).
  - vm_compute in H. discriminate H.
Defined.

(** X8, witness: the sample run leaves [marca] in the data, one of the
    ten keys of the form. *)
Lemma claves_de_los_datos_witness :
  exists s,
    (@atender ucd corrida_de_muestra ∅).1 !! u "v1" = Some s
    /\ data s !! u "marca" = Some (u "Siemens")
    /\ In (u "marca") (claves_cotizacion ++ claves_postventa).
Proof.
  destruct ((@atender ucd corrida_de_muestra ∅).1 !! u "v1") as [s|] eqn:H.
  - exists s. split; [reflexivity |].
    assert (Hm : data s !! u "marca" = Some (u "Siemens")).
    { vm_compute in H. injection H as <-. vm_compute. reflexivity. }
    split; [exact Hm |].
    apply (@claves_de_los_datos ucd corrida_de_muestra (u "v1") (u "marca") s H).
    rewrite Hm. now eexists.
  - vm_compute in H. discriminate H.
Defined.

(** ** Whole flows *)

Section Flujos.
Context `{U : PyLib}.

Lemma sesion_de_insert (sessions : gmap pystr Session) (vid : pystr)
    (s : Session) :
  sesion_de (<[vid := s]> sessions) vid = s.
Proof. unfold sesion_de. now rewrite lookup_insert_eq. Qed.

Lemma webhook_paso (sessions : gmap pystr Session) (body : pyval)
    (vid txt : pystr) (s' : Session) (r : Reply) :
  evento_mensaje body vid txt ->
  paso (sesion_de sessions vid) txt s' r ->
  salesiq_webhook POST body sessions = (<[vid := s']> sessions, Ok (JsonReply r)).
Proof.
  intros Hev Hp. rewrite (webhook_mensaje _ _ _ _ Hev).
  now rewrite (paso_despachar _ _ _ _ Hp).
Qed.

Lemma resumen_de_datos_union (campos datos : gmap pystr pystr) :
  (forall k, In k claves_cotizacion -> is_Some (campos !! k)) ->
  resumen_de_datos (campos ∪ datos) = resumen_de_datos campos.
Proof.
  intros Hk. unfold resumen_de_datos. unfold pystr in *.
  repeat match goal with
         | |- context [(campos ∪ datos) !! ?k] =>
             let v := fresh "v" in let Hv := fresh "Hv" in
             destruct (Hk k) as [v Hv]; [en_lista |];
             rewrite (lookup_union_Some_l campos datos k v Hv), Hv
         end.
  reflexivity.
Qed.

(** X9.  The post-sale flow from end to end: a message that names the
    flow, then four answers.  The answers are stored as they are under
    [nombre], [rut], [numero_factura] and [detalle], whatever they say;
    the last reply carries the summary of exactly these four texts, and
    the session is back in [menu_principal]. *)
Theorem flujo_postventa (sessions : gmap pystr Session)
    (b0 b1 b2 b3 b4 : pyval) (vid t0 t1 t2 t3 t4 : pystr) :
  evento_mensaje b0 vid t0 ->
  evento_mensaje b1 vid t1 ->
  evento_mensaje b2 vid t2 ->
  evento_mensaje b3 vid t3 ->
  evento_mensaje b4 vid t4 ->
  In (state (sesion_de sessions vid)) [u "menu_principal"; u "inicio"] ->
  contains (u "cotiz") (normalizar_texto (Some t0)) = false ->
  contains (u "postventa") (normalizar_texto (Some t0))
  || contains (u "post venta") (normalizar_texto (Some t0)) = true ->
  atender [(POST, b0); (POST, b1); (POST, b2); (POST, b3); (POST, b4)] sessions =
    (<[vid := {| state := u "menu_principal";
                 data := <[u "detalle" := t4]>
                           (<[u "numero_factura" := t3]>
                              (<[u "rut" := t2]>
                                 (<[u "nombre" := t1]>
                                    (data (sesion_de sessions vid))))) |}]>
       sessions,
     [Ok (JsonReply pide_nombre);
      Ok (JsonReply (textos [u "Indique su RUT:"]));
      Ok (JsonReply (textos [u "Indique el número de factura (si lo tiene):"]));
      Ok (JsonReply (textos [u "Describa brevemente el problema o solicitud de postventa:"]));
      Ok (JsonReply
            (textos [u "Gracias. Hemos registrado su solicitud de postventa con el siguiente detalle:";
                     resumen_postventa (Some t1) (Some t2) (Some t3) t4;
                     u "Un ejecutivo se pondrá en contacto con usted."]))]).
Proof.
  intros H0 H1 H2 H3 H4 Hs Hc Hp. cbn [atender].
  erewrite (webhook_paso sessions b0 vid t0);
    [| exact H0 | now apply paso_postventa].
  erewrite (webhook_paso _ b1 vid t1);
    [| exact H1 | apply paso_nombre; now rewrite sesion_de_insert].
  rewrite sesion_de_insert, insert_insert_eq. cbn [data].
  erewrite (webhook_paso _ b2 vid t2);
    [| exact H2 | apply paso_rut; now rewrite sesion_de_insert].
  rewrite sesion_de_insert, insert_insert_eq. cbn [data].
  erewrite (webhook_paso _ b3 vid t3);
    [| exact H3 | apply paso_factura; now rewrite sesion_de_insert].
  rewrite sesion_de_insert, insert_insert_eq. cbn [data].
  erewrite (webhook_paso _ b4 vid t4);
    [| exact H4 | apply paso_detalle; now rewrite sesion_de_insert].
  rewrite sesion_de_insert, insert_insert_eq. cbn [data].
  rewrite !(lookup_insert_ne _ (u "numero_factura"))
    by (apply str_eqb_false; reflexivity).
  rewrite (lookup_insert_ne _ (u "rut")) by (apply str_eqb_false; reflexivity).
  rewrite !lookup_insert_eq. reflexivity.
Qed.

(** X10.  The quote flow from end to end: a message that names the flow
    is answered with the form; the next message is parsed, its ten fields
    are merged into the data, the session is back in [menu_principal],
    and the summary of the reply shows the ten fields as the data now
    hold them. *)
Theorem flujo_cotizacion (sessions : gmap pystr Session)
    (b0 b1 : pyval) (vid t0 t1 : pystr) :
  evento_mensaje b0 vid t0 ->
  evento_mensaje b1 vid t1 ->
  In (state (sesion_de sessions vid)) [u "menu_principal"; u "inicio"] ->
  contains (u "cotiz") (normalizar_texto (Some t0)) = true ->
  exists campos,
    parse_campos t1 = Ok campos
    /\ atender [(POST, b0); (POST, b1)] sessions =
       (<[vid := {| state := u "menu_principal";
                    data := campos ∪ data (sesion_de sessions vid) |}]> sessions,
        [Ok (JsonReply (textos [formulario]));
         Ok (JsonReply
               (textos [u "Gracias. Hemos registrado su solicitud con el siguiente detalle:";
                        resumen_de_datos (campos ∪ data (sesion_de sessions vid));
                        u "Un ejecutivo de Selec se pondrá en contacto con usted."]))]).
Proof.
  intros H0 H1 Hs Hc.
  destruct (manejar_flujo_cotizacion_bloque_datos (sesion_de sessions vid) t1)
    as (campos & Hparse & _).
  exists campos. split; [exact Hparse |]. cbn [atender].
  erewrite (webhook_paso sessions b0 vid t0);
    [| exact H0 | now apply paso_cotizar].
  erewrite (webhook_paso _ b1 vid t1);
    [| exact H1
     | apply (paso_formulario _ _ campos); [now rewrite sesion_de_insert | exact Hparse]].
  rewrite sesion_de_insert, insert_insert_eq. cbn [data].
  rewrite resumen_de_datos_union
    by (intros k Hk; now apply (parse_campos_claves t1 campos Hparse)).
  reflexivity.
Qed.

End Flujos.

(** X9, witness: a new visitor goes through the post-sale flow. *)
Lemma flujo_postventa_witness :
  let mensaje t :=
    PDict [(u "handler", PStr (u "message"));
           (u "visitor", PDict [(u "id", PStr (u "v1"))]);
           (u "message", PDict [(u "text", PStr t)])] in
  (@atender ucd
     [(POST, mensaje (u "Servicio PostVenta")); (POST, mensaje (u "Ana Rojas"));
      (POST, mensaje (u "12.345.678-9")); (POST, mensaje (u "F-1001"));
      (POST, mensaje (u "Equipo no enciende"))] ∅).1 !! u "v1"
  = Some {| state := u "menu_principal";
            data := <[u "detalle" := u "Equipo no enciende"]>
                      (<[u "numero_factura" := u "F-1001"]>
                         (<[u "rut" := u "12.345.678-9"]>
                            (<[u "nombre" := u "Ana Rojas"]> ∅))) |}.
Proof.
  intros mensaje.
  rewrite (@flujo_postventa ucd ∅ _ _ _ _ _ (u "v1")
             (u "Servicio PostVenta") (u "Ana Rojas") (u "12.345.678-9")
             (u "F-1001") (u "Equipo no enciende")).
  - cbn [fst]. apply lookup_insert_eq.
  - repeat split; reflexivity.
  - repeat split; reflexivity.
  - repeat split; reflexivity.
  - repeat split; reflexivity.
  - repeat split; reflexivity.
  - right. left. reflexivity.
  - vm_compute. reflexivity.
  - vm_compute. reflexivity.
Defined.

(** X10, witness: a new visitor asks for a quote and sends two lines of
    the form. *)
Lemma flujo_cotizacion_witness :
  let mensaje t :=
    PDict [(u "handler", PStr (u "message"));
           (u "visitor", PDict [(u "id", PStr (u "v1"))]);
           (u "message", PDict [(u "text", PStr t)])] in
  let t1 := u "Marca: Siemens" ++ nl ++ u "Cantidad: 10" in
  exists campos,
    @parse_campos ucd t1 = Ok campos
    /\ (@atender ucd [(POST, mensaje (u "Solicitud Cotización"));
                      (POST, mensaje t1)] ∅).1 !! u "v1"
       = Some {| state := u "menu_principal"; data := campos ∪ ∅ |}.
Proof.
  intros mensaje t1.
  destruct (@flujo_cotizacion ucd ∅ (mensaje (u "Solicitud Cotización"))
              (mensaje t1) (u "v1") (u "Solicitud Cotización") t1)
    as (campos & Hparse & Hrun).
  - repeat split; reflexivity.
  - repeat split; reflexivity.
  - right. left. reflexivity.
  - vm_compute. reflexivity.
  - exists campos. split; [exact Hparse |].
    rewrite Hrun. cbn [fst]. apply lookup_insert_eq.
Defined.

(** ** The envelope *)

Section Sobre.
Context `{U : PyLib}.

(** The visitor id is the [str] of the first of [id], [visitor_id],
    [email], [phone], [ip] whose value is truthy, in this order, and
    ["anon"] when none is: an absent field, [None], an empty string and
    a zero are all passed over. *)
Lemma get_visitor_id_orden (d v : list (pystr * pyval)) :
  py_or (valor_de d (u "visitor")) (PDict []) = PDict v ->
  get_visitor_id (PDict d) =
    Ok match find truthy (map (valor_de v) campos_visitante) with
       | Some x => py_str x
       | None => u "anon"
       end.
Proof.
  intros Hv. unfold get_visitor_id.
  cbn [py_get fmap outcome_fmap mbind outcome_bind].
  fold (valor_de d (u "visitor")). rewrite Hv.
  cbn [py_get mbind outcome_bind campos_visitante map find].
  fold (valor_de v (u "id")) (valor_de v (u "visitor_id"))
       (valor_de v (u "email")) (valor_de v (u "phone")) (valor_de v (u "ip")).
  repeat match goal with
         | |- context [if truthy ?x then _ else _] => destruct (truthy x)
         end; reflexivity.
Qed.

Lemma texto_de_recortado (m : pyval) (txt : pystr) :
  match m with
  | PDict _ =>
      t ← (x ← py_get m (u "text");
           if truthy x then mret x else
           x ← py_get m (u "value");
           if truthy x then mret x else mret (PStr []));
      mret (strip (py_str t))
  | PStr s => mret (strip s)
  | _ => mret []
  end = Ok txt ->
  strip txt = txt.
Proof.
  destruct m; try (intros [= <-]; reflexivity).
  - intros [= <-]. apply strip_idem.
  - cbn [py_get mbind outcome_bind].
    repeat match goal with
           | |- context [if truthy ?v then _ else _] => destruct (truthy v)
           end; intros [= <-]; apply strip_idem.
Qed.

(** X11.  The text [extraer_mensaje] returns has no leading or trailing
    whitespace, wherever in the body it was found. *)
Theorem extraer_mensaje_recortado (payload : pyval) (txt : pystr) :
  extraer_mensaje payload = Ok txt -> strip txt = txt.
Proof.
  destruct payload; try discriminate.
  unfold extraer_mensaje.
  cbn [py_get fmap outcome_fmap mbind outcome_bind].
  destruct (truthy (default PNone (assoc (u "message") d))).
  - cbn [negb mret outcome_ret mbind outcome_bind]. apply texto_de_recortado.
  - cbn [negb].
    destruct (py_get (py_or (default PNone (assoc (u "request") d)) (PDict []))
                     (u "message")) as [m | e];
      cbn [fmap outcome_fmap mbind outcome_bind];
      [apply texto_de_recortado | discriminate].
Qed.

Lemma texto_de_falso (m : pyval) :
  truthy m = false ->
  match m with
  | PDict _ =>
      t ← (x ← py_get m (u "text");
           if truthy x then mret x else
           x ← py_get m (u "value");
           if truthy x then mret x else mret (PStr []));
      mret (strip (py_str t))
  | PStr s => mret (strip s)
  | _ => mret []
  end = Ok [].
Proof.
  destruct m as [| b | z | f | s | l | d]; try reflexivity.
  - destruct s; [reflexivity | discriminate].
  - destruct d; [reflexivity | discriminate].
Qed.

(** X12.  A truthy [message] at the root of the body decides the text
    alone: nothing else in the body is looked at, not even a [request]
    that is no dict.  Without it, the [message] under [request] is read
    just as if it stood at the root. *)
Theorem mensaje_raiz_o_anidado (d : list (pystr * pyval)) :
  (truthy (valor_de d (u "message")) = true ->
   extraer_mensaje (PDict d)
   = extraer_mensaje (PDict [(u "message", valor_de d (u "message"))]))
  /\ (truthy (valor_de d (u "message")) = false ->
      forall q, py_or (valor_de d (u "request")) (PDict []) = PDict q ->
        extraer_mensaje (PDict d)
        = extraer_mensaje (PDict [(u "message", valor_de q (u "message"))])).
Proof.
  split.
  - intros Hm. unfold extraer_mensaje.
    cbn [py_get fmap outcome_fmap mbind outcome_bind].
    change (default PNone (assoc (u "message")
                             [(u "message", valor_de d (u "message"))]))
      with (valor_de d (u "message")).
    fold (valor_de d (u "message")). now rewrite Hm.
  - intros Hm q Hq. unfold extraer_mensaje.
    cbn [py_get fmap outcome_fmap mbind outcome_bind].
    change (default PNone (assoc (u "message")
                             [(u "message", valor_de q (u "message"))]))
      with (valor_de q (u "message")).
    change (default PNone (assoc (u "request")
                             [(u "message", valor_de q (u "message"))]))
      with PNone.
    fold (valor_de d (u "message")) (valor_de d (u "request")).
    rewrite Hm, Hq. cbn [negb py_get fmap outcome_fmap mbind outcome_bind].
    fold (valor_de q (u "message")).
    destruct (truthy (valor_de q (u "message"))) eqn:Hqm;
      cbn [negb mret outcome_ret mbind outcome_bind]; [reflexivity |].
    change (py_or PNone (PDict [])) with (PDict []).
    cbn [py_get mbind outcome_bind].
    change (default PNone (assoc (u "message") [])) with PNone.
    now rewrite texto_de_falso.
Qed.

End Sobre.

(** An empty [id] and no [visitor_id]: the e-mail is next. *)
Example get_visitor_id_orden_correo :
  @get_visitor_id ucd
    (PDict [(u "visitor",
             PDict [(u "id", PStr []); (u "ip", PStr (u "10.0.0.7"));
                    (u "email", PStr (u "ana@acme.cl"))])])
  = Ok (u "ana@acme.cl").
Proof.
  rewrite (@get_visitor_id_orden ucd _
             [(u "id", PStr []); (u "ip", PStr (u "10.0.0.7"));
              (u "email", PStr (u "ana@acme.cl"))]);
    reflexivity.
Qed.

(** X11, witness: a text under [request], with blanks around it. *)
Lemma extraer_mensaje_recortado_witness :
  strip (u "Equipo no enciende") = u "Equipo no enciende".
Proof.
  apply (@extraer_mensaje_recortado ucd
           (PDict [(u "request",
                    PDict [(u "message",
                            PDict [(u "value", PStr (u "  Equipo no enciende "))])])])).
  reflexivity.
Defined.

(** ** More on the form parser *)

Section MasFormulario.
Context `{U : PyLib}.

(** X13.  Whatever the message, the parser returns, and what it returns
    has the ten keys of the quote form and no other. *)
Theorem parse_campos_diez_claves (message_text : pystr) :
  exists campos,
    parse_campos message_text = Ok campos
    /\ dom campos = list_to_set claves_cotizacion.
Proof.
  eexists. split; [apply parse_campos_anotar |].
  apply set_eq. intros k.
  rewrite elem_of_dom, elem_of_list_to_set, list_elem_of_In.
  symmetry. apply (parse_campos_claves message_text).
  apply parse_campos_anotar.
Qed.

Lemma anotar_conmuta (campos : gmap pystr pystr) (x y : pystr) :
  (forall k v w, campo_de_linea x = Some (k, v) ->
                 campo_de_linea y = Some (k, w) -> False) ->
  anotar (anotar campos x) y = anotar (anotar campos y) x.
Proof.
  unfold anotar. intros Hxy.
  destruct (campo_de_linea x) as [[kx vx]|]; [| reflexivity].
  destruct (campo_de_linea y) as [[ky vy]|]; [| reflexivity].
  apply insert_insert_ne. intros ->. eapply Hxy; reflexivity.
Qed.

Lemma campos_dados_cons (x : pystr) (l : list pystr) :
  campos_dados (x :: l) =
    match campo_de_linea x with
    | Some (k, _) => k :: campos_dados l
    | None => campos_dados l
    end.
Proof.
  unfold campos_dados. cbn [omap list_omap].
  now destruct (campo_de_linea x) as [[k v]|].
Qed.

Lemma anotar_permutadas (l l' : list pystr) :
  l ≡ₚ l' ->
  forall campos, NoDup (campos_dados l) ->
    fold_left anotar l campos = fold_left anotar l' campos.
Proof.
  induction 1 as [| x l l' Hp IH | x y l | l l' l'' Hp1 IH1 Hp2 IH2];
    intros campos Hnd.
  - reflexivity.
  - cbn [fold_left]. apply IH. rewrite campos_dados_cons in Hnd.
    destruct (campo_de_linea x) as [[k v]|]; [| exact Hnd].
    now apply NoDup_cons in Hnd as [_ Hnd].
  - cbn [fold_left]. f_equal. apply anotar_conmuta.
    intros k v w Hy Hx. rewrite !campos_dados_cons, Hx, Hy in Hnd.
    apply NoDup_cons in Hnd as [Hk _]. apply Hk. now left.
  - rewrite IH1 by exact Hnd. apply IH2.
    assert (Hperm : campos_dados l ≡ₚ campos_dados l')
      by (unfold campos_dados; now rewrite Hp1).
    now rewrite <- Hperm.
Qed.

(** X14.  The order of the lines of a form does not matter as long as no
    field is given twice: two messages with the same lines, in any
    order, are parsed to the same fields. *)
Theorem orden_de_las_lineas (t1 t2 : pystr) :
  splitlines t1 ≡ₚ splitlines t2 ->
  NoDup (campos_dados (splitlines t1)) ->
  parse_campos t1 = parse_campos t2.
Proof.
  intros Hp Hnd. rewrite !parse_campos_anotar. f_equal.
  now apply anotar_permutadas.
Qed.

End MasFormulario.

(** X14, witness: two lines of the form, sent in either order. *)
Lemma orden_de_las_lineas_witness :
  @parse_campos ucd (u "Marca: ABB" ++ nl ++ u "Giro: Minería")
  = @parse_campos ucd (u "Giro: Minería" ++ nl ++ u "Marca: ABB").
Proof.
  apply (@orden_de_las_lineas ucd).
  - let a := eval vm_compute in (splitlines (u "Marca: ABB" ++ nl ++ u "Giro: Minería")) in
    let b := eval vm_compute in (splitlines (u "Giro: Minería" ++ nl ++ u "Marca: ABB")) in
    change (a ≡ₚ b).
    apply perm_swap.
  - let a := eval vm_compute in
        (@campos_dados ucd (splitlines (u "Marca: ABB" ++ nl ++ u "Giro: Minería"))) in
    change (NoDup a).
    apply NoDup_cons. split; [| apply NoDup_singleton].
    intros Hin%list_elem_of_In. destruct Hin as [Hin | []]. discriminate Hin.
Defined.

(** ** Filling in the template *)

Lemma split1_app (sep : codepoint) (a b : pystr) :
  ~ In sep a -> split1 sep (a ++ sep :: b) = [a; b].
Proof.
  induction a as [|c a IH]; simpl; intros Ha.
  - now rewrite N.eqb_refl.
  - destruct (N.eqb_spec c sep) as [-> | Hne]; [tauto |].
    rewrite IH by tauto. reflexivity.
Qed.

Lemma splitlines_linea (l resto : pystr) :
  una_linea l -> splitlines (l ++ 10 :: resto) = l :: splitlines resto.
Proof.
  induction 1 as [|c l Hc Hl IH]; [reflexivity |].
  cbn [app splitlines]. now rewrite Hc, IH.
Qed.

Lemma splitlines_vacia (resto : pystr) :
  splitlines (10 :: resto) = [] :: splitlines resto.
Proof. reflexivity. Qed.

Lemma splitlines_ultima (l : pystr) :
  una_linea l -> l <> [] -> splitlines l = [l].
Proof.
  induction 1 as [|c l Hc Hl IH]; [intros Hn; now destruct Hn |]. intros _.
  cbn [splitlines]. rewrite Hc. destruct l as [|c' l]; [reflexivity |].
  rewrite IH by discriminate. reflexivity.
Qed.

Lemma una_linea_app (a b : pystr) :
  una_linea a -> una_linea b -> una_linea (a ++ b).
Proof. unfold una_linea. intros Ha Hb. now apply Forall_app. Qed.

Section Plantilla.
Context `{U : PyLib}.

Lemma campo_de_linea_etiqueta (etiqueta valor k : pystr) :
  ~ In 58 etiqueta ->
  campo_de_etiqueta (normalizar_texto (Some etiqueta)) = Some k ->
  campo_de_linea (etiqueta ++ 58 :: valor) = Some (k, strip valor).
Proof.
  intros Hsin Hk. unfold campo_de_linea.
  replace (contains (u ":") (etiqueta ++ 58 :: valor)) with true.
  2:{ symmetry. change (u ":") with [58]. apply contains_char.
      apply in_or_app. right. now left. }
  now rewrite split1_app, Hk.
Qed.

(** A form whose lines give the fields [os], line by line. *)
Lemma anotar_lista (lineas : list pystr) (os : list (option (pystr * pystr)))
    (campos : gmap pystr pystr) :
  Forall2 (fun l o => campo_de_linea l = o) lineas os ->
  fold_left anotar lineas campos =
    fold_left (fun c (o : option (pystr * pystr)) =>
                 match o with
                 | Some (k, v) => <[k := v]> c
                 | None => c
                 end) os campos.
Proof.
  intros H. revert campos.
  induction H as [|l o lineas os Hl _ IH]; intros campos; [reflexivity |].
  cbn [fold_left]. rewrite <- IH. unfold anotar at 2. now rewrite Hl.
Qed.

End Plantilla.

Lemma diez_campos (v1 v2 v3 v4 v5 v6 v7 v8 v9 v10 : pystr) :
  <[u "direccion_entrega" := v10]>
    (<[u "cantidad" := v9]>
       (<[u "marca" := v8]>
          (<[u "num_parte" := v7]>
             (<[u "telefono" := v6]>
                (<[u "correo" := v5]>
                   (<[u "contacto" := v4]>
                      (<[u "rut" := v3]>
                         (<[u "giro" := v2]>
                            (<[u "empresa" := v1]> campos_en_blanco)))))))))
  = list_to_map
      [(u "empresa", v1); (u "giro", v2); (u "rut", v3); (u "contacto", v4);
       (u "correo", v5); (u "telefono", v6); (u "num_parte", v7);
       (u "marca", v8); (u "cantidad", v9); (u "direccion_entrega", v10)].
Proof. vm_compute. reflexivity. Qed.

(** [rellenar] is the form of the menu with the values written in: with
    no value it is the text the bot sends. *)
Lemma rellenar_en_blanco : rellenar [] [] [] [] [] [] [] [] [] [] = formulario.
Proof. vm_compute. reflexivity. Qed.

(** X15.  The form the bot sends is one its parser reads: when the
    template is sent back with a value written after each of its ten
    labels (values without line breaks), every field gets its value,
    trimmed; the two lines of instructions and the blank line give
    nothing.  (On the Unicode excerpt: the labels have accents.) *)
Theorem plantilla_rellenada
    (empresa giro rut contacto correo telefono num_parte marca cantidad
     direccion_entrega : pystr) :
  una_linea empresa -> una_linea giro -> una_linea rut ->
  una_linea contacto -> una_linea correo -> una_linea telefono ->
  una_linea num_parte -> una_linea marca -> una_linea cantidad ->
  una_linea direccion_entrega ->
  @parse_campos ucd
    (rellenar empresa giro rut contacto correo telefono num_parte marca
              cantidad direccion_entrega)
  = Ok (list_to_map
          [(u "empresa", strip empresa); (u "giro", strip giro);
           (u "rut", strip rut); (u "contacto", strip contacto);
           (u "correo", strip correo); (u "telefono", strip telefono);
           (u "num_parte", strip num_parte); (u "marca", strip marca);
           (u "cantidad", strip cantidad);
           (u "direccion_entrega", strip direccion_entrega)]).
Proof.
  intros H1 H2 H3 H4 H5 H6 H7 H8 H9 H10.
  rewrite parse_campos_anotar, <- diez_campos. f_equal.
  unfold rellenar. change nl with [10]. cbn [app].
  assert (Hlit : forall l : pystr, forallb (fun c => negb (is_linebreak c)) l = true ->
                                   una_linea l).
  { intros l Hl. unfold una_linea. apply Forall_forall.
    rewrite forallb_forall in Hl. intros c Hc%list_elem_of_In.
    now apply negb_true_iff, Hl. }
  rewrite splitlines_linea by (apply Hlit; vm_compute; reflexivity).
  rewrite splitlines_linea by (apply Hlit; vm_compute; reflexivity).
  rewrite splitlines_vacia.
  repeat match goal with
         | |- context [splitlines (u ?l ++ ?v ++ 10 :: ?resto)] =>
             rewrite (app_assoc (u l) v (10 :: resto)),
               (splitlines_linea (u l ++ v) resto)
               by (apply una_linea_app; [apply Hlit; vm_compute; reflexivity | assumption])
         end.
  rewrite splitlines_ultima;
    [| apply una_linea_app; [apply Hlit; vm_compute; reflexivity | assumption]
     | intros [Hnil _]%app_eq_nil; vm_compute in Hnil; discriminate Hnil].
  erewrite (@anotar_lista ucd).
  2:{ repeat first
        [ apply List.Forall2_nil
        | apply List.Forall2_cons;
          [ lazymatch goal with
            | |- campo_de_linea (u ?l ++ ?v) = _ =>
                let e := eval vm_compute in (removelast (u l)) in
                change (u l ++ v) with (e ++ 58 :: v);
                apply (@campo_de_linea_etiqueta ucd);
                [ intros Hin%contains_char; vm_compute in Hin; discriminate Hin
                | vm_compute; reflexivity ]
            | |- _ => vm_compute; reflexivity
            end
          | ] ]. }
  repeat match goal with
         | |- context [strip ?v] => generalize (strip v); intro
         end.
  vm_compute. reflexivity.
Qed.

(** X15, witness: the template filled in by hand. *)
Lemma plantilla_rellenada_witness :
  exists campos,
    @parse_campos ucd
      (rellenar (u " Acme S.A.") (u " Minería") (u " 76.123.456-7")
                (u " Ana Rojas") (u " ana@acme.cl") (u " +56 2 2345 6789")
                (u " Contactor 3RT2 24V") (u " Siemens") (u " 10")
                (u " Av. Apoquindo 4500, Las Condes"))
    = Ok campos
    /\ campos !! u "telefono" = Some (u "+56 2 2345 6789")
    /\ campos !! u "num_parte" = Some (u "Contactor 3RT2 24V").
Proof.
  eexists. split.
  - apply plantilla_rellenada; vm_compute; repeat constructor.
  - split; reflexivity.
Defined.

(** ** Edges *)

Section Bordes.
Context `{U : PyLib}.

(** X16.  A message without text asks for nothing and is refused
    nowhere: in [menu_principal] or [inicio] the menu is offered again
    and the session stays as it is; in [cotizacion_bloque] it counts as
    a form with no line, so the ten fields are stored blank, over what
    the data held under these keys. *)
Theorem mensaje_vacio (sessions : gmap pystr Session) (body : pyval)
    (vid : pystr) :
  evento_mensaje body vid [] ->
  let s := sesion_de sessions vid in
  (In (state s) [u "menu_principal"; u "inicio"] ->
   salesiq_webhook POST body sessions =
     (<[vid := s]> sessions, Ok (JsonReply menu_de_nuevo)))
  /\ (state s = u "cotizacion_bloque" ->
      salesiq_webhook POST body sessions =
        (<[vid := {| state := u "menu_principal";
                     data := campos_en_blanco ∪ data s |}]> sessions,
         Ok (JsonReply
               (textos [u "Gracias. Hemos registrado su solicitud con el siguiente detalle:";
                        resumen_de_datos campos_en_blanco;
                        u "Un ejecutivo de Selec se pondrá en contacto con usted."])))).
Proof.
  intros Hev s. split; intros Hs.
  - apply (webhook_paso sessions body vid [] s menu_de_nuevo Hev).
    apply paso_reintento; [exact Hs | reflexivity | reflexivity].
  - apply (webhook_paso sessions body vid [] _ _ Hev).
    apply (paso_formulario s [] campos_en_blanco); [exact Hs | reflexivity].
Qed.

Lemma paso_conserva_claves (s s' : Session) (txt k : pystr) (r : Reply) :
  paso s txt s' r -> is_Some (data s !! k) -> is_Some (data s' !! k).
Proof.
  intros Hp Hk. destruct Hp; cbn [data]; try exact Hk.
  - apply lookup_union_is_Some. now right.
  - rewrite lookup_insert. now case_decide.
  - rewrite lookup_insert. now case_decide.
  - rewrite lookup_insert. now case_decide.
  - rewrite lookup_insert. now case_decide.
Qed.

(** X17.  No request takes a key out of the data of a session: what was
    answered once stays, until a later answer under the same key
    replaces it; a [trigger] in particular starts the menu again with
    the data of the earlier conversation still there. *)
Theorem datos_no_se_pierden (method : http_method) (body : pyval)
    (sessions : gmap pystr Session) (v k : pystr) (s s' : Session) :
  sessions !! v = Some s ->
  (salesiq_webhook method body sessions).1 !! v = Some s' ->
  is_Some (data s !! k) ->
  is_Some (data s' !! k).
Proof.
  intros Hs Hs' Hk. destruct method; [cbn in Hs'; congruence |].
  destruct (webhook_casos sessions body)
    as [[_ H] | (vid & s1 & o & _ & H & Hcasos)]; rewrite H in Hs'; cbn [fst] in Hs'.
  - congruence.
  - rewrite lookup_insert in Hs'. case_decide; [| congruence].
    subst vid. injection Hs' as <-.
    assert (H0 : sesion_de sessions v = s) by (unfold sesion_de; now rewrite Hs).
    rewrite H0 in Hcasos.
    destruct Hcasos as [[-> _] | [[-> _] | (txt & r & Hp & _)]];
      [exact Hk | exact Hk |].
    eapply paso_conserva_claves; eauto.
Qed.

End Bordes.

(** X16, witness: a body with no [message] and no [request]. *)
Lemma mensaje_vacio_witness :
  let body := PDict [(u "handler", PStr (u "message"));
                     (u "visitor", PDict [(u "id", PStr (u "v1"))])] in
  let sessions : gmap pystr Session :=
    {[u "v1" := {| state := u "cotizacion_bloque";
                   data := {[u "rut" := u "12345678-9"]} |}]} in
  exists s',
    (@salesiq_webhook ucd POST body sessions).1 !! u "v1" = Some s'
    /\ state s' = u "menu_principal"
    /\ data s' !! u "rut" = Some [].
Proof.
  intros body sessions.
  destruct (@mensaje_vacio ucd sessions body (u "v1")) as [_ H].
  - repeat split; reflexivity.
  - rewrite H by reflexivity. eexists. split; [apply lookup_insert_eq |].
    split; reflexivity.
Defined.

(** X17, witness: a [trigger] in the middle of a post-sale case. *)
Lemma datos_no_se_pierden_witness :
  let body := PDict [(u "handler", PStr (u "trigger"));
                     (u "visitor", PDict [(u "id", PStr (u "v1"))])] in
  let sessions : gmap pystr Session :=
    {[u "v1" := {| state := u "postventa_rut";
                   data := {[u "nombre" := u "Ana"]} |}]} in
  is_Some (data {| state := u "menu_principal";
                   data := {[u "nombre" := u "Ana"]} |} !! u "nombre").
Proof.
  intros body sessions.
  apply (@datos_no_se_pierden ucd POST body sessions (u "v1") (u "nombre")
           {| state := u "postventa_rut"; data := {[u "nombre" := u "Ana"]} |}).
  - reflexivity.
  - reflexivity.
  - eexists. reflexivity.
Defined.
